(** * Audio-RAG-QA: the retrieval-augmented question-answering pipeline

    A shallow embedding of [src/rag.py]: ingestion
    ([transcribe_audio], [create_embeddings_and_store]), the query pipeline
    ([search_and_generate_response]) and the database reset handler of
    [main], over an explicit model of the remote collaborators (AssemblyAI,
    Voyage, the MongoDB Atlas collection and Gemini).

    Python exceptions are an error monad, the collection and the Streamlit
    page are explicit state, and every remote call is recorded in a history
    so that statements of the form "the service is never invoked" can be
    made. *)

From Stdlib Require Import String Ascii List Bool Arith QArith Lia DecimalString Sorted.
Import ListNotations.
Open Scope string_scope.
Open Scope nat_scope.

Set Implicit Arguments.

(** ** Python values used by the pipeline *)

(** [str(e)] of a raised [Exception]: only the message is ever observed. *)
Definition Exn := string.

(** The result of running a Python block: it returns or it raises. *)
Inductive outcome (A : Type) : Type :=
| Returned (a : A)
| Raised (e : Exn).
Arguments Returned {A} a.
Arguments Raised {A} e.

(** The character [\n]. *)
Definition nl : string := String (ascii_of_nat 10) EmptyString.

(** [sep.join(xs)]. *)
Fixpoint join (sep : string) (xs : list string) : string :=
  match xs with
  | [] => ""
  | [x] => x
  | x :: rest => x ++ sep ++ join sep rest
  end.

(** [l.insert(i, x)] on a Python list. *)
Definition list_insert {A : Type} (i : nat) (x : A) (l : list A) : list A :=
  firstn i l ++ x :: skipn i l.

(** [l[0]], which raises [IndexError] on the empty list. *)
Definition index0 {A : Type} (l : list A) : outcome A :=
  match l with
  | x :: _ => Returned x
  | [] => Raised "list index out of range"
  end.

(** Truthiness of the [session_id] argument, as tested by [if session_id:]:
    [None] and the empty string are false. *)
Definition truthy (session_id : option string) : bool :=
  match session_id with
  | None => false
  | Some s => negb (String.eqb s "")
  end.

(** ** The monad of Python blocks: state and exceptions *)

Section Monad.

Variable W : Type.

Definition M (A : Type) : Type := W -> outcome A * W.

Definition ret {A : Type} (a : A) : M A := fun w => (Returned a, w).

Definition raise {A : Type} (e : Exn) : M A := fun w => (Raised e, w).

Definition bind {A B : Type} (m : M A) (k : A -> M B) : M B :=
  fun w =>
    match m w with
    | (Returned a, w') => k a w'
    | (Raised e, w') => (Raised e, w')
    end.

(** [try: body except Exception as e: handler]. State changes made by the
    body before it raised are kept. *)
Definition try_except {A : Type} (body : M A) (handler : Exn -> M A) : M A :=
  fun w =>
    match body w with
    | (Returned a, w') => (Returned a, w')
    | (Raised e, w') => handler e w'
    end.

Definition lift {A : Type} (o : outcome A) : M A := fun w => (o, w).

Definition modify (f : W -> W) : M unit := fun w => (Returned tt, f w).

Definition get : M W := fun w => (Returned w, w).

End Monad.

Arguments ret {W A} a.
Arguments raise {W A} e.
Arguments lift {W A} o.
Arguments get {W}.

Declare Scope py_scope.
Delimit Scope py_scope with py.
Notation "x <- m ;; k" := (bind m (fun x => k))
  (at level 61, m at next level, right associativity) : py_scope.
Notation "m ;; k" := (bind m (fun _ => k))
  (at level 61, right associativity) : py_scope.
Open Scope py_scope.

(** ** Data model *)

(** One entry of [speaker_transcripts]: [{"speaker": ..., "text": ...}]. *)
Record Utterance : Type := mkUtterance {
  u_speaker : string;
  u_text : string
}.

(** A field of a search index definition. *)
Record IndexField : Type := mkIndexField {
  f_type : string;
  f_numDimensions : nat;
  f_path : string;
  f_similarity : string
}.

(** [SearchIndexModel(definition={"fields": [...]}, name=..., type=...)]. *)
Record SearchIndexModel : Type := mkSearchIndexModel {
  idx_fields : list IndexField;
  idx_name : string;
  idx_type : string
}.

(** Streamlit status messages. *)
Inductive StLevel : Type := StInfo | StWarning | StError | StSuccess.

Record StMessage : Type := mkStMessage {
  st_level : StLevel;
  st_text : string
}.

(** The keys of [st.session_state] that the handlers touch. *)
Record SessionState : Type := mkSessionState {
  ss_session_id : option string;
  ss_transcripts : option (list Utterance);
  ss_chat_history : option (list (string * string))
}.

Section Pipeline.

(** An embedding vector (a list of floats in the source); only its
    similarity to another vector is ever observed. *)
Variable Vec : Type.

(** A stored document: [{"text": ..., "embedding": ..., "session_id": ...}]. *)
Record Doc : Type := mkDoc {
  d_text : string;
  d_embedding : Vec;
  d_session_id : string
}.

(** A document flowing through an aggregation pipeline. [r_meta] is the
    [vectorSearchScore] metadata; [r_embedding] and [r_score] are the
    fields that [$project] removes and adds. *)
Record Row : Type := mkRow {
  r_text : string;
  r_session_id : string;
  r_embedding : option Vec;
  r_score : option Q;
  r_meta : Q
}.

(** The aggregation stages that the source builds. *)
Inductive Stage : Type :=
| VectorSearch (index : string) (queryVector : Vec) (path : string)
               (limit : nat) (exact : bool)
| Match (session_id : string)
| Project.

(** The remote calls of the program. *)
Inductive Call : Type :=
| Transcribe (audio_file_path : string)
| Embed (texts : list string) (model input_type : string)
| InsertMany (docs : list Doc)
| ListSearchIndexes
| CreateSearchIndex (model : SearchIndexModel)
| Aggregate (pipeline : list Stage)
| DeleteMany
| DropSearchIndex (name : string)
| GenerateContent (model contents : string).

(** What the remote services do. [fault] decides, from the calls made so
    far (most recent first) and the call at hand, whether the call fails and
    with which message; the other fields are the services' answers when they
    do not fail. Nothing is assumed about any of them. *)
Record Remote : Type := mkRemote {
  fault : list Call -> Call -> option Exn;
  utterances_of : string -> list (string * string);
  embeddings_of : list Call -> list string -> string -> list Vec;
  candidates_of : list Call -> string -> list (list string);
  similarity : Vec -> Vec -> Q;
  uuid4 : nat -> string;
  partial_write : list Call -> list Doc -> nat
}.

(** The state the program runs in: the Atlas collection with its search
    indexes, the history of remote calls, the Streamlit page, the number of
    uuids drawn, and [st.session_state]. Lists of events are most recent
    first. *)
Record World : Type := mkWorld {
  collection : list Doc;
  search_indexes : list SearchIndexModel;
  history : list Call;
  page : list StMessage;
  uuids_drawn : nat;
  session_state : SessionState
}.

Definition set_collection (ds : list Doc) (w : World) : World :=
  mkWorld ds (search_indexes w) (history w) (page w) (uuids_drawn w)
          (session_state w).

Definition set_search_indexes (ixs : list SearchIndexModel) (w : World) : World :=
  mkWorld (collection w) ixs (history w) (page w) (uuids_drawn w)
          (session_state w).

Definition record_call (c : Call) (w : World) : World :=
  mkWorld (collection w) (search_indexes w) (c :: history w) (page w)
          (uuids_drawn w) (session_state w).

Definition st_write (m : StMessage) (w : World) : World :=
  mkWorld (collection w) (search_indexes w) (history w) (m :: page w)
          (uuids_drawn w) (session_state w).

Definition draw_uuid (w : World) : World :=
  mkWorld (collection w) (search_indexes w) (history w) (page w)
          (S (uuids_drawn w)) (session_state w).

Definition set_session_state (s : SessionState) (w : World) : World :=
  mkWorld (collection w) (search_indexes w) (history w) (page w)
          (uuids_drawn w) s.


(** ** The remote services *)

Variable R : Remote.

(** Python blocks of the program run over the [World]. *)
Definition Py (A : Type) : Type := M World A.

(** Every remote call is recorded in the history and raises when the
    service faults. *)
Definition remote (c : Call) : Py unit :=
  fun w =>
    match fault R (history w) c with
    | Some e => (Raised e, record_call c w)
    | None => (Returned tt, record_call c w)
    end.

(** [aai.Transcriber(config=config).transcribe(path).utterances], as
    (speaker, text) pairs. *)
Definition transcribe (audio_file_path : string) : Py (list (string * string)) :=
  remote (Transcribe audio_file_path) ;;
  ret (utterances_of R audio_file_path).

(** [vo.embed(texts, model=..., input_type=...).embeddings]. *)
Definition vo_embed (texts : list string) (model input_type : string)
  : Py (list Vec) :=
  w <- get ;;
  remote (Embed texts model input_type) ;;
  ret (embeddings_of R (history w) texts input_type).

(** [llm.models.generate_content(model=..., contents=...).candidates],
    each candidate as the texts of its content parts. *)
Definition generate_content (model contents : string)
  : Py (list (list string)) :=
  w <- get ;;
  remote (GenerateContent model contents) ;;
  ret (candidates_of R (history w) contents).

(** [str(uuid.uuid4())]. *)
Definition uuid4_str : Py string :=
  w <- get ;;
  modify draw_uuid ;;
  ret (uuid4 R (uuids_drawn w)).

Definition st_message (l : StLevel) (text : string) : Py unit :=
  modify (st_write (mkStMessage l text)).

Definition st_info := st_message StInfo.
Definition st_warning := st_message StWarning.
Definition st_error := st_message StError.
Definition st_success := st_message StSuccess.

(** *** The collection *)

(** [collection.insert_many(docs)]. pymongo rejects an empty list with a
    [TypeError] before it talks to the server. Otherwise this is an ordered
    bulk write; when it fails, the documents written before the failure
    stay. *)
Definition insert_many (docs : list Doc) : Py unit :=
  fun w =>
    match docs with
    | [] => (Raised "documents must be a non-empty list", w)
    | _ :: _ =>
        let w' := record_call (InsertMany docs) w in
        match fault R (history w) (InsertMany docs) with
        | Some e =>
            (Raised e,
             set_collection
               (collection w ++ firstn (partial_write R (history w) docs) docs)
               w')
        | None => (Returned tt, set_collection (collection w ++ docs) w')
        end
    end.

(** [collection.delete_many({})]. *)
Definition delete_many : Py unit :=
  remote DeleteMany ;;
  modify (set_collection []).

Definition named (name : string) (idx : SearchIndexModel) : bool :=
  String.eqb (idx_name idx) name.

(** [list(collection.list_search_indexes())]. *)
Definition list_search_indexes : Py (list SearchIndexModel) :=
  remote ListSearchIndexes ;;
  w <- get ;;
  ret (search_indexes w).

(** [collection.create_search_index(model=...)]: Atlas refuses a second
    index of the same name. *)
Definition create_search_index (model : SearchIndexModel) : Py unit :=
  remote (CreateSearchIndex model) ;;
  w <- get ;;
  if existsb (named (idx_name model)) (search_indexes w)
  then raise "Duplicate Index"
  else modify (set_search_indexes (search_indexes w ++ [model])).

(** [collection.drop_search_index(name)]: raises when there is no such
    index (the handler in [main] reads that as "index absent or already
    deleted"). *)
Definition drop_search_index (name : string) : Py unit :=
  remote (DropSearchIndex name) ;;
  w <- get ;;
  if existsb (named name) (search_indexes w)
  then modify (set_search_indexes
                 (filter (fun idx => negb (named name idx)) (search_indexes w)))
  else raise "Index not found".

(** *** Aggregation *)

Definition row_of_doc (meta : Q) (d : Doc) : Row :=
  mkRow (d_text d) (d_session_id d) (Some (d_embedding d)) None meta.

(** Ranking by descending score; documents of equal score keep their
    storage order. *)
Fixpoint insert_ranked (r : Row) (l : list Row) : list Row :=
  match l with
  | [] => [r]
  | r' :: l' =>
      if Qle_bool (r_meta r') (r_meta r) then r :: l
      else r' :: insert_ranked r l'
  end.

Definition rank (rows : list Row) : list Row :=
  fold_right insert_ranked [] rows.

Definition has_vector_index (index path : string)
  (ixs : list SearchIndexModel) : bool :=
  existsb (fun idx =>
             named index idx
             && existsb (fun f => String.eqb (f_path f) path) (idx_fields idx))
          ixs.

(** The [$vectorSearch] stage with [exact: True]: the [limit] documents of
    the whole collection nearest to the query vector, best first. It finds
    nothing when the named index is missing. *)
Definition vector_search (w : World) (index : string) (queryVector : Vec)
  (path : string) (limit : nat) : list Row :=
  if has_vector_index index path (search_indexes w)
  then firstn limit
         (rank (map (fun d => row_of_doc
                                (similarity R queryVector (d_embedding d)) d)
                    (collection w)))
  else [].

(** [{"$match": {"session_id": v}}]. *)
Definition matches (session_id : string) (r : Row) : bool :=
  String.eqb (r_session_id r) session_id.

(** [{"$project": {"_id": 0, "text": 1, "session_id": 1,
                   "score": {"$meta": "vectorSearchScore"}}}]. *)
Definition project (r : Row) : Row :=
  mkRow (r_text r) (r_session_id r) None (Some (r_meta r)) (r_meta r).

(** The stages after the first one, applied in order, each to the output
    of the one before. *)
Fixpoint run_stages (stages : list Stage) (rows : list Row)
  : outcome (list Row) :=
  match stages with
  | [] => Returned rows
  | Match session_id :: rest => run_stages rest (filter (matches session_id) rows)
  | Project :: rest => run_stages rest (map project rows)
  | VectorSearch _ _ _ _ _ :: _ =>
      Raised "$vectorSearch is only valid as the first stage in a pipeline"
  end.

Definition run_pipeline (w : World) (pipeline : list Stage)
  : outcome (list Row) :=
  match pipeline with
  | VectorSearch index queryVector path limit _ :: rest =>
      run_stages rest (vector_search w index queryVector path limit)
  | _ => run_stages pipeline (map (row_of_doc 0%Q) (collection w))
  end.

(** [list(collection.aggregate(pipeline))]. *)
Definition aggregate (pipeline : list Stage) : Py (list Row) :=
  remote (Aggregate pipeline) ;;
  w <- get ;;
  lift (run_pipeline w pipeline).

(** ** The program: [src/rag.py] *)

(** [str(n)] for a natural number. *)
Definition str_of_nat (n : nat) : string :=
  NilEmpty.string_of_uint (Nat.to_uint n).

(** [transcribe_audio(audio_file_path)]; the transcription configuration
    (best model, language zh, speaker labels) is fixed and stays with the
    service. *)
Definition transcribe_audio (audio_file_path : string) : Py (list Utterance) :=
  utterances <- transcribe audio_file_path ;;
  ret (map (fun u => mkUtterance ("Speaker " ++ fst u) (snd u)) utterances).

(** [f"{item['speaker']}: {item['text']}"]. *)
Definition speaker_sent (item : Utterance) : string :=
  u_speaker item ++ ": " ++ u_text item.

(** The model built at lines 81-94. *)
Definition search_index_model : SearchIndexModel :=
  mkSearchIndexModel [mkIndexField "vector" 1024 "embedding" "cosine"]
                     "vector_index" "vectorSearch".

(** The body of the [try] at lines 80-103: create the vector index unless
    one of that name is listed. *)
Definition ensure_index_body : Py unit :=
  existing_indexes <- list_search_indexes ;;
  let vector_index_exists :=
    existsb (fun idx => String.eqb (idx_name idx) "vector_index")
            existing_indexes in
  if negb vector_index_exists
  then create_search_index search_index_model ;;
       st_info "已創建向量索引"
  else st_info "向量索引已存在".

(** The index block of [create_embeddings_and_store] (lines 79-107): any
    exception of the body is shown as a warning and swallowed. *)
Definition ensure_index : Py unit :=
  try_except ensure_index_body
    (fun e =>
       st_warning ("索引操作時發生錯誤: " ++ e) ;;
       st_info "數據已成功儲存，索引可能需要稍後創建").

(** The documents built by the loop over [zip(speaker_sents, embeds)]. *)
Definition build_docs (speaker_sents : list string) (embeds : list Vec)
  (session_id : string) : list Doc :=
  map (fun p => mkDoc (fst p) (snd p) session_id)
      (combine speaker_sents embeds).

(** The insertion block (lines 71-77): a failed write is shown and raised
    again. *)
Definition store_docs (docs : list Doc) : Py unit :=
  try_except
    (insert_many docs ;;
     st_info ("已成功插入 " ++ str_of_nat (length docs) ++ " 個文檔"))
    (fun e =>
       st_error ("插入文檔時發生錯誤: " ++ e) ;;
       raise e).

(** [create_embeddings_and_store(speaker_transcripts, vo, collection)]. *)
Definition create_embeddings_and_store (speaker_transcripts : list Utterance)
  : Py (string * nat) :=
  let speaker_sents := map speaker_sent speaker_transcripts in
  embeds <- vo_embed speaker_sents "voyage-2" "document" ;;
  session_id <- uuid4_str ;;
  let docs := build_docs speaker_sents embeds session_id in
  store_docs docs ;;
  ensure_index ;;
  ret (session_id, length docs).

(** The pipeline list of lines 119-142. *)
Definition search_pipeline (query_embed : Vec) (session_id : option string)
  : list Stage :=
  let search_pipeline :=
    [VectorSearch "vector_index" query_embed "embedding" 5 true; Project] in
  match session_id with
  | Some s =>
      if truthy session_id
      then list_insert 1 (Match s) search_pipeline
      else search_pipeline
  | None => search_pipeline
  end.

Definition not_found_answer : string :=
  "抱歉，我在資料庫中找不到相關資訊。".

(** The prompt of lines 155-164. *)
Definition prompt_of (merged_context query : string) : string :=
  "Context information is below." ++ nl ++
  "----------------------- " ++ nl ++
  merged_context ++ nl ++
  "----------------------- " ++ nl ++
  "Given the context information above, think step by step " ++
  "to answer the query in a crisp manner. Please answer in Traditional Chinese." ++ nl ++
  "Query: " ++ query ++ nl ++
  "Answer: ".

(** The separator of [merged_context] (line 153). *)
Definition context_separator : string := nl ++ nl ++ "---" ++ nl ++ nl.

(** The body of the [try] at lines 166-171. *)
Definition generate_answer (prompt : string) : Py string :=
  candidates <- generate_content "gemini-2.0-flash-exp" prompt ;;
  parts <- lift (index0 candidates) ;;
  lift (index0 parts).

(** [search_and_generate_response(query, vo, collection, llm, session_id)]. *)
Definition search_and_generate_response (query : string)
  (session_id : option string) : Py (string * list Row) :=
  embeddings <- vo_embed [query] "voyage-2" "query" ;;
  query_embed <- lift (index0 embeddings) ;;
  let search_pipeline := search_pipeline query_embed session_id in
  searched <-
    try_except
      (results <- aggregate search_pipeline ;; ret (inl results))
      (fun e => ret (inr ("搜索時發生錯誤: " ++ e, []))) ;;
  match searched with
  | inr early => ret early
  | inl results =>
      match results with
      | [] => ret (not_found_answer, [])
      | _ :: _ =>
          let merged_context := join context_separator (map r_text results) in
          let prompt := prompt_of merged_context query in
          answer <-
            try_except (generate_answer prompt)
                       (fun e => ret ("生成回答時發生錯誤: " ++ e)) ;;
          ret (answer, results)
      end
  end.

(** The handler of the clean-up button in [main] (lines 200-228). The
    two-second sleep has no counterpart here; the three [del] statements
    leave [st.session_state] without its three keys. *)
Definition reset : Py unit :=
  try_except
    (delete_many ;;
     try_except
       (drop_search_index "vector_index" ;;
        st_info "已刪除舊索引")
       (fun _ => st_info "索引不存在或已被刪除") ;;
     st_success "資料庫已清理完成，請重新上傳音訊檔案" ;;
     modify (set_session_state (mkSessionState None None None)))
    (fun e => st_error ("清理資料庫時發生錯誤: " ++ e)).

End Pipeline.

Arguments mkDoc {Vec} d_text d_embedding d_session_id.
Arguments mkRow {Vec} r_text r_session_id r_embedding r_score r_meta.
Arguments VectorSearch {Vec} index queryVector path limit exact.
Arguments Match {Vec} session_id.
Arguments Project {Vec}.
Arguments Transcribe {Vec} audio_file_path.
Arguments Embed {Vec} texts model input_type.
Arguments InsertMany {Vec} docs.
Arguments ListSearchIndexes {Vec}.
Arguments CreateSearchIndex {Vec} model.
Arguments Aggregate {Vec} pipeline.
Arguments DeleteMany {Vec}.
Arguments DropSearchIndex {Vec} name.
Arguments GenerateContent {Vec} model contents.

(** ** The other handlers of [main] *)

Section Handlers.

Variable Vec : Type.
Variable R : Remote Vec.

Definition set_transcripts (ts : list Utterance) (ss : SessionState)
  : SessionState :=
  mkSessionState (ss_session_id ss) (Some ts) (ss_chat_history ss).

Definition set_session_id (session_id : string) (ss : SessionState)
  : SessionState :=
  mkSessionState (Some session_id) (ss_transcripts ss) (ss_chat_history ss).

(** Lines 277-278: the chat history is created when the key is missing. *)
Definition init_chat_history (ss : SessionState) : SessionState :=
  match ss_chat_history ss with
  | Some _ => ss
  | None => mkSessionState (ss_session_id ss) (ss_transcripts ss) (Some [])
  end.

(** [st.session_state.chat_history.append({"role": ..., "content": ...})];
    reading a missing key of the session state raises. *)
Definition append_chat (role content : string) : Py Vec unit :=
  w <- @get (World Vec) ;;
  match ss_chat_history (session_state w) with
  | Some turns =>
      modify (set_session_state
                (mkSessionState (ss_session_id (session_state w))
                   (ss_transcripts (session_state w))
                   (Some (turns ++ [(role, content)])%list)))
  | None => raise "st.session_state has no attribute 'chat_history'"
  end.

(** Lines 305-310, as far as they can raise: a source is shown with
    [f"{score:.3f}"], where [score = result.get('score', 'N/A')]; the
    format fails on the string that stands for a missing score. What
    [st.markdown] draws has no counterpart here. *)
Definition render_sources (search_results : list (Row Vec)) : outcome unit :=
  if forallb (fun result => match r_score result with
                            | Some _ => true
                            | None => false
                            end) search_results
  then Returned tt
  else Raised "Unknown format code 'f' for object of type 'str'".

(** The handler of the process button in [main] (lines 239-267), from the
    path of the temporary file on; writing and unlinking that file have no
    counterpart here. *)
Definition main_upload (tmp_file_path : string) : Py Vec unit :=
  try_except
    (speaker_transcripts <- transcribe_audio R tmp_file_path ;;
     modify (fun w => set_session_state
                        (set_transcripts speaker_transcripts (session_state w))
                        w) ;;
     st_success "音訊轉錄完成" ;;
     stored <- create_embeddings_and_store R speaker_transcripts ;;
     modify (fun w => set_session_state
                        (set_session_id (fst stored) (session_state w)) w) ;;
     st_success ("已成功處理並儲存 " ++ str_of_nat (snd stored)
                 ++ " 個文檔片段"))
    (fun e => st_error ("處理音訊時發生錯誤: " ++ e)).

(** The chat part of [main] (lines 277-317) for one run of the script;
    [query] is what [st.chat_input] returns. *)
Definition main_chat (query : option string) : Py Vec unit :=
  modify (fun w => set_session_state (init_chat_history (session_state w)) w) ;;
  match query with
  | Some q =>
      if truthy query
      then
        w <- get ;;
        match ss_session_id (session_state w) with
        | None => st_warning "請先上傳並處理音訊檔案"
        | Some session_id =>
            append_chat "user" q ;;
            try_except
              (found <- search_and_generate_response R q (Some session_id) ;;
               lift (render_sources (snd found)) ;;
               append_chat "assistant" (fst found))
              (fun e =>
                 let error_msg := "生成回答時發生錯誤: " ++ e in
                 st_error error_msg ;;
                 append_chat "assistant" error_msg)
        end
      else ret tt
  | None => ret tt
  end.

End Handlers.

(** ** The search contract in the words of the specification

    Section 4.3 asks for a pre-filter: restrict to the session first, then
    rank and truncate to [top_k]. This definition follows those words; it is
    compared with what [search_and_generate_response] does. *)
Definition search_prefilter {Vec : Type} (R : Remote Vec) (w : World Vec)
  (query_vector : Vec) (top_k : nat) (session_id : string) : list (Row Vec) :=
  map (@project Vec)
      (firstn top_k
         (rank (filter (matches session_id)
                  (map (fun d => row_of_doc
                                   (similarity R query_vector (d_embedding d)) d)
                       (collection w))))).

(** ** Observations on histories and pages *)

Definition is_generate_content {Vec : Type} (c : Call Vec) : bool :=
  match c with GenerateContent _ _ => true | _ => false end.

Definition is_create_search_index {Vec : Type} (c : Call Vec) : bool :=
  match c with CreateSearchIndex _ => true | _ => false end.

(** How many times the language model was invoked. *)
Definition llm_calls {Vec : Type} (h : list (Call Vec)) : nat :=
  length (filter is_generate_content h).

Definition count_named (name : string) (ixs : list SearchIndexModel) : nat :=
  length (filter (named name) ixs).

Definition is_warning (m : StMessage) : bool :=
  match st_level m with StWarning => true | _ => false end.

Definition is_error (m : StMessage) : bool :=
  match st_level m with StError => true | _ => false end.

(** The two messages of the index block, and the warning of its handler. *)
Definition created_message : StMessage := mkStMessage StInfo "已創建向量索引".
Definition present_message : StMessage := mkStMessage StInfo "向量索引已存在".
Definition index_warning (e : Exn) : StMessage :=
  mkStMessage StWarning ("索引操作時發生錯誤: " ++ e).
Definition stored_anyway_message : StMessage :=
  mkStMessage StInfo "數據已成功儲存，索引可能需要稍後創建".

(** The message shown after a successful insertion. *)
Definition inserted_message (n : nat) : StMessage :=
  mkStMessage StInfo ("已成功插入 " ++ str_of_nat n ++ " 個文檔").

(** The messages of the clean-up handler. *)
Definition dropped_message : StMessage := mkStMessage StInfo "已刪除舊索引".
Definition absent_message : StMessage :=
  mkStMessage StInfo "索引不存在或已被刪除".
Definition cleaned_message : StMessage :=
  mkStMessage StSuccess "資料庫已清理完成，請重新上傳音訊檔案".

(** Best first: every row scores at least as much as the rows after it. *)
Definition ranked {Vec : Type} (l : list (Row Vec)) : Prop :=
  StronglySorted (fun a b => (r_meta b <= r_meta a)%Q) l.

(** ** Observations used by the properties of the handlers *)

(** The error messages on the page. *)
Definition errors_shown {Vec : Type} (w : World Vec) : list StMessage :=
  filter is_error (page w).

(** The turns of the chat history, none when the key is missing. *)
Definition chat_turns {Vec : Type} (w : World Vec) : list (string * string) :=
  match ss_chat_history (session_state w) with
  | Some turns => turns
  | None => []
  end.

(** The rows that a [$match] on the session id keeps, when there is one. *)
Definition scoped {Vec : Type} (session_id : option string)
  (rows : list (Row Vec)) : list (Row Vec) :=
  match session_id with
  | Some s => if truthy session_id then filter (matches s) rows else rows
  | None => rows
  end.

Definition is_store_write {Vec : Type} (c : Call Vec) : bool :=
  match c with
  | InsertMany _ | CreateSearchIndex _ | DeleteMany | DropSearchIndex _ => true
  | _ => false
  end.

(** The utterances as [transcribe_audio] labels them. *)
Definition labelled (utterances : list (string * string)) : list Utterance :=
  map (fun u => mkUtterance ("Speaker " ++ fst u) (snd u)) utterances.

(** The messages of the upload and chat handlers. *)
Definition upload_error (e : Exn) : StMessage :=
  mkStMessage StError ("處理音訊時發生錯誤: " ++ e).
Definition transcribed_message : StMessage :=
  mkStMessage StSuccess "音訊轉錄完成".
Definition processed_message (doc_count : nat) : StMessage :=
  mkStMessage StSuccess
    ("已成功處理並儲存 " ++ str_of_nat doc_count ++ " 個文檔片段").
Definition no_session_warning : StMessage :=
  mkStMessage StWarning "請先上傳並處理音訊檔案".
Definition chat_error_text (e : Exn) : string := "生成回答時發生錯誤: " ++ e.

(** ** Concrete services and stores for the examples

    One-dimensional embeddings over [Z]; a document is the more similar to
    a query the closer its coordinate is. *)

Definition demo_similarity (q v : Z) : Q := inject_Z (- Z.abs (q - v)).

Definition demo_embeddings (texts : list string) : list Z :=
  map (fun t => Z.of_nat (String.length t)) texts.

(** Services that never fail. *)
Definition demo : Remote Z :=
  mkRemote (fun _ _ => None)
           (fun _ => [("A", "hello"); ("B", "world")])
           (fun _ texts _ => demo_embeddings texts)
           (fun _ _ => [["an answer"]])
           demo_similarity
           (fun n => "session-" ++ str_of_nat n)
           (fun _ _ => 0).

(** The same services with a given fault plan. *)
Definition with_fault (f : list (Call Z) -> Call Z -> option Exn)
  (R : Remote Z) : Remote Z :=
  mkRemote f (utterances_of R) (embeddings_of R) (candidates_of R)
           (similarity R) (uuid4 R) (partial_write R).

Definition embed_down : Remote Z :=
  with_fault (fun _ c => match c with
                         | Embed _ _ _ => Some "voyage unreachable"
                         | _ => None
                         end) demo.

Definition store_down : Remote Z :=
  with_fault (fun _ c => match c with
                         | Aggregate _ => Some "connection refused"
                         | _ => None
                         end) demo.

Definition llm_down : Remote Z :=
  with_fault (fun _ c => match c with
                         | GenerateContent _ _ => Some "quota exceeded"
                         | _ => None
                         end) demo.

Definition index_down : Remote Z :=
  with_fault (fun _ c => match c with
                         | ListSearchIndexes => Some "not authorized"
                         | _ => None
                         end) demo.

Definition insert_down : Remote Z :=
  with_fault (fun _ c => match c with
                         | InsertMany _ => Some "write refused"
                         | _ => None
                         end) demo.

Definition transcribe_down : Remote Z :=
  with_fault (fun _ c => match c with
                         | Transcribe _ => Some "unsupported format"
                         | _ => None
                         end) demo.


(** A Voyage client that answers with one vector only. *)
Definition short_embedder : Remote Z :=
  mkRemote (fault demo) (utterances_of demo)
           (fun _ texts _ => firstn 1 (demo_embeddings texts))
           (candidates_of demo) (similarity demo) (uuid4 demo)
           (partial_write demo).

(** A Voyage client that answers with no vector at all. *)
Definition no_vectors : Remote Z :=
  mkRemote (fault demo) (utterances_of demo)
           (fun _ _ _ => [])
           (candidates_of demo) (similarity demo) (uuid4 demo)
           (partial_write demo).

Definition empty_world : World Z :=
  mkWorld [] [] [] [] 0 (mkSessionState None None None).

Definition demo_transcripts : list Utterance :=
  [mkUtterance "Speaker A" "hello"; mkUtterance "Speaker B" "world"].

(** A store with the index in place, five segments of session B whose
    coordinates are next to that of the one-character query, and two
    segments of session A further away. *)
Definition two_sessions : World Z :=
  mkWorld [mkDoc "Speaker A: a far" 40%Z "A";
           mkDoc "Speaker B: b1" 1%Z "B";
           mkDoc "Speaker B: b2" 2%Z "B";
           mkDoc "Speaker B: b3" 3%Z "B";
           mkDoc "Speaker A: a farther" 50%Z "A";
           mkDoc "Speaker B: b4" 4%Z "B";
           mkDoc "Speaker B: b5" 5%Z "B"]
          [search_index_model] [] [] 7
          (mkSessionState (Some "A") None (Some [])).

(** A store where session A owns the best match. *)
Definition mixed_sessions : World Z :=
  mkWorld [mkDoc "Speaker B: b1" 3%Z "B";
           mkDoc "Speaker A: a1" 1%Z "A";
           mkDoc "Speaker A: a2" 9%Z "A"]
          [search_index_model] [] [] 2
          (mkSessionState (Some "A") None (Some [])).

(** The citations of the query "q" scoped to session A over
    [mixed_sessions]: the query embeds to the coordinate 1. *)
Definition mixed_results : list (Row Z) :=
  [mkRow "Speaker A: a1" "A" None (Some (0 # 1)%Q) (0 # 1)%Q;
   mkRow "Speaker A: a2" "A" None (Some (-8 # 1)%Q) (-8 # 1)%Q].

(** The citations of the query "q" without a session id over
    [mixed_sessions]. *)
Definition unscoped_results : list (Row Z) :=
  [mkRow "Speaker A: a1" "A" None (Some (0 # 1)%Q) (0 # 1)%Q;
   mkRow "Speaker B: b1" "B" None (Some (-2 # 1)%Q) (-2 # 1)%Q;
   mkRow "Speaker A: a2" "A" None (Some (-8 # 1)%Q) (-8 # 1)%Q].

(** The worlds that the query "q" scoped to session A goes through. *)
Definition after_embed (R : Remote Z) (w : World Z) : World Z :=
  snd (vo_embed R ["q"] "voyage-2" "query" w).

Definition after_search (R : Remote Z) (w : World Z) : World Z :=
  snd (aggregate R (search_pipeline 1%Z (Some "A")) (after_embed R w)).

Definition after_answer (R : Remote Z) (w : World Z) : World Z :=
  snd (search_and_generate_response R "q" (Some "A") w).

(** The worlds that the ingestion of [demo_transcripts] goes through. *)
Definition demo_sents : list string := map speaker_sent demo_transcripts.

Definition ingest_embedded (R : Remote Z) : World Z :=
  snd (vo_embed R demo_sents "voyage-2" "document" empty_world).

Definition ingest_stored (R : Remote Z) : World Z :=
  snd (store_docs R
         (build_docs demo_sents
            (embeddings_of R [] demo_sents "document") "session-0")
         (draw_uuid (ingest_embedded R))).

(** * Properties *)

(** ** Lists: ranking, filtering, truncating *)

Section Ranking.

Variable Vec : Type.

Implicit Types (r : Row Vec) (l : list (Row Vec)).

Lemma insert_ranked_In r x l :
  In x (insert_ranked r l) <-> x = r \/ In x l.
Proof.
  induction l as [|r' l' IH]; simpl.
  - intuition congruence.
  - destruct (Qle_bool (r_meta r') (r_meta r)); simpl.
    + intuition congruence.
    + rewrite IH. intuition congruence.
Qed.

Lemma rank_In x l : In x (rank l) <-> In x l.
Proof.
  induction l as [|r l IH]; simpl.
  - tauto.
  - rewrite insert_ranked_In, IH. intuition congruence.
Qed.

Lemma insert_ranked_ranked r l : ranked l -> ranked (insert_ranked r l).
Proof.
  unfold ranked. induction l as [|r' l' IH]; intros Hl; simpl.
  - constructor; constructor.
  - destruct (Qle_bool (r_meta r') (r_meta r)) eqn:Hle.
    + apply Qle_bool_iff in Hle.
      constructor; auto. constructor; auto.
      inversion Hl as [|? ? _ Hall]; subst.
      rewrite Forall_forall in *. intros y Hy.
      eapply Qle_trans; [apply Hall, Hy | exact Hle].
    + inversion Hl as [|? ? Hl' Hall]; subst.
      constructor; auto.
      rewrite Forall_forall in *. intros y Hy.
      apply insert_ranked_In in Hy. destruct Hy as [-> | Hy]; auto.
      apply Qlt_le_weak, Qnot_le_lt. intros H.
      apply Qle_bool_iff in H. congruence.
Qed.

Lemma rank_ranked l : ranked (rank l).
Proof.
  induction l as [|r l IH]; simpl.
  - constructor.
  - now apply insert_ranked_ranked.
Qed.

(** A row that scores at least as much as everything in a list goes to its
    front. *)
Lemma insert_ranked_front r l :
  Forall (fun y => (r_meta y <= r_meta r)%Q) l -> insert_ranked r l = r :: l.
Proof.
  destruct l as [|r' l']; simpl; auto.
  intros H. inversion H as [|? ? Hle _]; subst.
  apply Qle_bool_iff in Hle. now rewrite Hle.
Qed.

(** Filtering commutes with a stable insertion. *)
Lemma filter_insert_ranked (p : Row Vec -> bool) r l :
  ranked l ->
  filter p (insert_ranked r l) =
  if p r then insert_ranked r (filter p l) else filter p l.
Proof.
  unfold ranked. induction l as [|r' l' IH]; intros Hl.
  - simpl. now destruct (p r).
  - inversion Hl as [|? ? Hl' Hall]; subst.
    cbn [insert_ranked].
    destruct (Qle_bool (r_meta r') (r_meta r)) eqn:Hle.
    + cbn [filter]. destruct (p r) eqn:Hp; auto.
      rewrite insert_ranked_front; auto.
      apply Qle_bool_iff in Hle.
      assert (Hfront : Forall (fun y => (r_meta y <= r_meta r)%Q) (r' :: l')).
      { constructor; auto. rewrite Forall_forall in *. intros y Hy.
        eapply Qle_trans; [apply Hall, Hy | exact Hle]. }
      rewrite Forall_forall in *. intros y Hy.
      apply Hfront. change (In y (filter p (r' :: l'))) in Hy.
      apply filter_In in Hy. tauto.
    + cbn [filter]. rewrite (IH Hl').
      destruct (p r'), (p r); cbn [insert_ranked]; try rewrite Hle; auto.
Qed.

Lemma filter_rank (p : Row Vec -> bool) l :
  filter p (rank l) = rank (filter p l).
Proof.
  induction l as [|r l IH]; simpl; auto.
  rewrite filter_insert_ranked by apply rank_ranked.
  rewrite IH. now destruct (p r).
Qed.

End Ranking.

Section Truncation.

Variable A : Type.

Local Open Scope list_scope.

Lemma firstn_succ (k : nat) (l : list A) :
  firstn (S k) l = firstn k l ++ firstn 1 (skipn k l).
Proof.
  revert l. induction k as [|k IH]; intros [|x l]; try reflexivity.
  change (x :: firstn (S k) l = x :: (firstn k l ++ firstn 1 (skipn k l))).
  now rewrite IH.
Qed.

(** Truncating and then filtering yields a prefix of filtering and then
    truncating. *)
Lemma filter_firstn_prefix (p : A -> bool) (k : nat) (l : list A) :
  exists rest, firstn k (filter p l) = filter p (firstn k l) ++ rest.
Proof.
  revert k. induction l as [|x l IH]; intros k.
  - exists []. now destruct k.
  - destruct k as [|k].
    + exists []. reflexivity.
    + destruct (IH k) as [rest Hrest].
      change (firstn (S k) (x :: l)) with (x :: firstn k l).
      cbn [filter]. destruct (p x).
      * exists rest. cbn [firstn]. rewrite Hrest. reflexivity.
      * exists (rest ++ firstn 1 (skipn k (filter p l))).
        rewrite firstn_succ, Hrest, app_assoc. reflexivity.
Qed.

Lemma firstn_In (k : nat) (x : A) (l : list A) :
  In x (firstn k l) -> In x l.
Proof.
  intros H. rewrite <- (firstn_skipn k l). apply in_or_app. now left.
Qed.

End Truncation.

(** ** How the blocks of the program run *)

Section Runs.

Variable Vec : Type.
Variable R : Remote Vec.

Implicit Types (w : World Vec) (h : list (Call Vec)).

Lemma remote_run (c : Call Vec) w :
  remote R c w =
  (match fault R (history w) c with
   | Some e => Raised e
   | None => Returned tt
   end, record_call c w).
Proof. unfold remote. now destruct (fault R (history w) c). Qed.

Lemma vo_embed_run texts model input_type w :
  vo_embed R texts model input_type w =
  (match fault R (history w) (Embed texts model input_type) with
   | Some e => Raised e
   | None => Returned (embeddings_of R (history w) texts input_type)
   end, record_call (Embed texts model input_type) w).
Proof.
  unfold vo_embed, bind, get, ret. rewrite remote_run.
  now destruct (fault R (history w) _).
Qed.

Lemma generate_content_run model contents w :
  generate_content R model contents w =
  (match fault R (history w) (GenerateContent model contents) with
   | Some e => Raised e
   | None => Returned (candidates_of R (history w) contents)
   end, record_call (GenerateContent model contents) w).
Proof.
  unfold generate_content, bind, get, ret. rewrite remote_run.
  now destruct (fault R (history w) _).
Qed.

Lemma aggregate_run pipeline w :
  aggregate R pipeline w =
  (match fault R (history w) (Aggregate pipeline) with
   | Some e => Raised e
   | None => run_pipeline R w pipeline
   end, record_call (Aggregate pipeline) w).
Proof.
  unfold aggregate, bind, get, ret, lift. rewrite remote_run.
  now destruct (fault R (history w) _).
Qed.

Lemma list_search_indexes_run w :
  list_search_indexes R w =
  (match fault R (history w) ListSearchIndexes with
   | Some e => Raised e
   | None => Returned (search_indexes w)
   end, record_call ListSearchIndexes w).
Proof.
  unfold list_search_indexes, bind, get, ret. rewrite remote_run.
  now destruct (fault R (history w) _).
Qed.

(** The query pipeline, step by step. *)
Lemma search_and_generate_response_run query session_id w :
  search_and_generate_response R query session_id w =
  match vo_embed R [query] "voyage-2" "query" w with
  | (Raised e, w1) => (Raised e, w1)
  | (Returned embeddings, w1) =>
      match index0 embeddings with
      | Raised e => (Raised e, w1)
      | Returned query_embed =>
          match aggregate R (search_pipeline query_embed session_id) w1 with
          | (Raised e, w2) => (Returned (("搜索時發生錯誤: " ++ e)%string, []), w2)
          | (Returned [], w2) => (Returned (not_found_answer, []), w2)
          | (Returned (r :: rs), w2) =>
              let results := r :: rs in
              let prompt :=
                prompt_of (join context_separator (map (@r_text Vec) results))
                          query in
              match generate_answer R prompt w2 with
              | (Returned answer, w3) => (Returned (answer, results), w3)
              | (Raised e, w3) =>
                  (Returned (("生成回答時發生錯誤: " ++ e)%string, results), w3)
              end
          end
      end
  end.
Proof.
  unfold search_and_generate_response, bind, try_except, ret, lift.
  destruct (vo_embed R [query] "voyage-2" "query" w) as [[embeddings|e] w1]; auto.
  destruct (index0 embeddings) as [q|e]; auto.
  destruct (aggregate R (search_pipeline q session_id) w1) as [[[|r rs]|e] w2]; auto.
  cbv zeta.
  destruct (generate_answer R _ w2) as [[answer|e] w3]; auto.
Qed.

(** The pipeline of a scoped search: the [$match] stage sits after the
    [$vectorSearch] stage. *)
Lemma search_pipeline_scoped (q : Vec) (sid : string) :
  sid <> "" ->
  search_pipeline q (Some sid) =
  [VectorSearch "vector_index" q "embedding" 5 true; Match sid; Project].
Proof.
  intros Hsid. unfold search_pipeline, truthy.
  destruct (String.eqb sid "") eqn:E.
  - apply String.eqb_eq in E. contradiction.
  - reflexivity.
Qed.

Lemma search_pipeline_unscoped (q : Vec) (session_id : option string) :
  truthy session_id = false ->
  search_pipeline q session_id =
  [VectorSearch "vector_index" q "embedding" 5 true; Project].
Proof.
  intros H. unfold search_pipeline. destruct session_id; auto. now rewrite H.
Qed.

(** Every row of a vector search is a stored document with its score. *)
Lemma vector_search_In w index (q : Vec) path limit r :
  In r (vector_search R w index q path limit) ->
  exists d, In d (collection w) /\
            r = row_of_doc (similarity R q (d_embedding d)) d.
Proof.
  unfold vector_search.
  destruct (has_vector_index index path (search_indexes w)); [|intros []].
  intros H. apply firstn_In, rank_In, in_map_iff in H.
  destruct H as (d & <- & Hd). eauto.
Qed.

Lemma vector_search_length w index (q : Vec) path limit :
  length (vector_search R w index q path limit) <= limit.
Proof.
  unfold vector_search.
  destruct (has_vector_index index path (search_indexes w)); simpl.
  - apply firstn_le_length.
  - lia.
Qed.

(** What a scoped search gets back from the store when the call goes
    through. *)
Lemma run_scoped_pipeline w (q : Vec) (sid : string) :
  run_pipeline R w
    [VectorSearch "vector_index" q "embedding" 5 true; Match sid; Project] =
  Returned (map (@project Vec)
              (filter (matches sid)
                 (vector_search R w "vector_index" q "embedding" 5))).
Proof. reflexivity. Qed.

End Runs.

(** ** The query pipeline *)

Section Query.

Variable Vec : Type.
Variable R : Remote Vec.

Implicit Types (w : World Vec) (q : Vec) (results : list (Row Vec)).

(** The citations of a scoped search: none, or the rows of the five best
    matches of the whole collection that carry the session id. *)
Lemma scoped_search_citations query sid w answer results w' :
  sid <> "" ->
  search_and_generate_response R query (Some sid) w
  = (Returned (answer, results), w') ->
  results = [] \/
  exists q,
    results = map (@project Vec)
                (filter (matches sid)
                   (vector_search R w "vector_index" q "embedding" 5)).
Proof.
  intros Hsid. rewrite search_and_generate_response_run, vo_embed_run.
  destruct (fault R (history w) _); [discriminate|].
  destruct (index0 _) as [q|e]; [|discriminate].
  rewrite (search_pipeline_scoped q Hsid), aggregate_run.
  destruct (fault R _ _).
  - intros [= _ <- _]. now left.
  - rewrite run_scoped_pipeline.
    destruct (map _ _) as [|r rs] eqn:E.
    + intros [= _ <- _]. now left.
    + cbv zeta. destruct (generate_answer R _ _) as [[a|e] w3];
        intros [= _ <- _]; right; exists q; now rewrite <- E.
Qed.

(** A failed query embedding is not handled inside the pipeline. *)
Lemma embedding_failure_is_raised query session_id e w w1 :
  vo_embed R [query] "voyage-2" "query" w = (Raised e, w1) ->
  search_and_generate_response R query session_id w = (Raised e, w1).
Proof.
  intros H. now rewrite search_and_generate_response_run, H.
Qed.

(** C1. Every segment returned by a search that is given a session id
    (a non-empty string, which is what [if session_id:] tests) carries that
    session id and is a stored segment of that session; no segment of
    another session is returned. *)
Theorem scoped_search_returns_only_that_session
  query sid answer results w w' :
  sid <> "" ->
  search_and_generate_response R query (Some sid) w
  = (Returned (answer, results), w') ->
  Forall (fun r =>
            r_session_id r = sid /\
            exists d, In d (collection w) /\ d_session_id d = sid /\
                      d_text d = r_text r)
         results
  /\ (forall other r, other <> sid -> In r results -> r_session_id r <> other).
Proof.
  intros Hsid Hrun.
  assert (Hall : Forall (fun r =>
            r_session_id r = sid /\
            exists d, In d (collection w) /\ d_session_id d = sid /\
                      d_text d = r_text r) results).
  { destruct (scoped_search_citations _ _ Hsid Hrun) as [-> | [q ->]].
    - constructor.
    - apply Forall_forall. intros r Hr.
      apply in_map_iff in Hr. destruct Hr as (r0 & <- & Hr0).
      apply filter_In in Hr0. destruct Hr0 as [Hr0 Hm].
      apply String.eqb_eq in Hm.
      apply vector_search_In in Hr0. destruct Hr0 as (d & Hd & ->).
      simpl in *. split; auto. exists d. auto. }
  split; auto.
  intros other r Hother Hr. rewrite Forall_forall in Hall.
  destruct (Hall r Hr) as [-> _]. congruence.
Qed.

(** C2, as the code has it. The [$match] stage comes after [$vectorSearch]:
    the limit of five is taken over the whole collection and the session
    filter is applied to those five. The citations are therefore a prefix,
    possibly a shorter one, of what filtering before ranking would give. *)
Theorem scoped_search_filters_after_limit
  query sid q more w w1 w2 results :
  sid <> "" ->
  vo_embed R [query] "voyage-2" "query" w = (Returned (q :: more), w1) ->
  aggregate R (search_pipeline q (Some sid)) w1 = (Returned results, w2) ->
  results = map (@project Vec)
              (filter (matches sid)
                 (vector_search R w "vector_index" q "embedding" 5))
  /\ length results <= 5
  /\ (exists rest, search_prefilter R w q 5 sid = (results ++ rest)%list)
  /\ exists answer w',
       search_and_generate_response R query (Some sid) w
       = (Returned (answer, results), w').
Proof.
  intros Hsid Hembed Hagg.
  assert (Hw1 : w1 = record_call (Embed [query] "voyage-2" "query") w).
  { rewrite vo_embed_run in Hembed. now injection Hembed. }
  assert (Hres : results = map (@project Vec)
              (filter (matches sid)
                 (vector_search R w "vector_index" q "embedding" 5))).
  { rewrite (search_pipeline_scoped q Hsid), aggregate_run in Hagg.
    destruct (fault R _ _); [discriminate|].
    rewrite run_scoped_pipeline in Hagg. subst w1.
    now injection Hagg as <- _. }
  split; [exact Hres|]. split; [|split].
  - rewrite Hres, length_map.
    eapply Nat.le_trans; [apply filter_length_le | apply vector_search_length].
  - rewrite Hres. unfold search_prefilter, vector_search.
    destruct (has_vector_index _ _ _).
    + rewrite <- filter_rank.
      destruct (filter_firstn_prefix (matches sid) 5
                  (rank (map (fun d => row_of_doc
                                 (similarity R q (d_embedding d)) d)
                             (collection w)))) as [rest Hrest].
      exists (map (@project Vec) rest).
      now rewrite Hrest, map_app.
    + simpl. eauto.
  - rewrite search_and_generate_response_run, Hembed. cbn [index0].
    rewrite Hagg. destruct results as [|r rs]; [eauto|].
    cbv zeta. destruct (generate_answer R _ w2) as [[a|e] w3]; eauto.
Qed.

(** C4, as the code has it. Once the query is embedded, the pipeline
    always returns an (answer, citations) pair: a failed store search gives
    an error text and no citations; a failed synthesis gives an error text
    and the retrieved citations. *)
Theorem query_failures_become_answers query session_id q more w w1 :
  vo_embed R [query] "voyage-2" "query" w = (Returned (q :: more), w1) ->
  exists answer citations w',
    search_and_generate_response R query session_id w
    = (Returned (answer, citations), w')
    /\ (forall e w2,
          aggregate R (search_pipeline q session_id) w1 = (Raised e, w2) ->
          answer = ("搜索時發生錯誤: " ++ e)%string /\ citations = [])
    /\ (forall results e w2 w3,
          aggregate R (search_pipeline q session_id) w1
          = (Returned results, w2) ->
          results <> [] ->
          generate_answer R
            (prompt_of (join context_separator (map (@r_text Vec) results))
                       query) w2
          = (Raised e, w3) ->
          answer = ("生成回答時發生錯誤: " ++ e)%string /\ citations = results).
Proof.
  intros Hembed.
  rewrite search_and_generate_response_run, Hembed. cbn [index0].
  destruct (aggregate R (search_pipeline q session_id) w1)
    as [[[|r rs]|e] w2].
  - do 3 eexists. split; [reflexivity|]. split.
    + intros ? ? [=].
    + intros results e w2' w3 [= <- _] Hne. congruence.
  - cbv zeta. destruct (generate_answer R _ w2) as [[a|e] w3] eqn:Hgen.
    + do 3 eexists. split; [reflexivity|]. split.
      * intros ? ? [=].
      * intros results e w2' w3' [= <- <-] _ Hfail.
        rewrite Hgen in Hfail. discriminate.
    + do 3 eexists. split; [reflexivity|]. split.
      * intros ? ? [=].
      * intros results e' w2' w3' [= <- <-] _ Hfail.
        rewrite Hgen in Hfail. injection Hfail as <- _. auto.
  - do 3 eexists. split; [reflexivity|]. split.
    + intros e' w2' [= <- _]. auto.
    + intros ? ? ? ? [=].
Qed.

(** C5. When retrieval succeeds with results and synthesis fails, the
    pipeline returns the error text as the answer together with the
    retrieved citations; nothing is raised. *)
Theorem synthesis_failure_keeps_citations
  query session_id q more results e w w1 w2 w3 :
  vo_embed R [query] "voyage-2" "query" w = (Returned (q :: more), w1) ->
  aggregate R (search_pipeline q session_id) w1 = (Returned results, w2) ->
  results <> [] ->
  generate_answer R
    (prompt_of (join context_separator (map (@r_text Vec) results)) query) w2
  = (Raised e, w3) ->
  search_and_generate_response R query session_id w
  = (Returned (("生成回答時發生錯誤: " ++ e)%string, results), w3).
Proof.
  intros Hembed Hagg Hne Hgen.
  rewrite search_and_generate_response_run, Hembed. cbn [index0].
  rewrite Hagg. destruct results as [|r rs]; [congruence|].
  cbv zeta. now rewrite Hgen.
Qed.

(** C6. When the store search returns no result, the language model is
    not called and the pipeline returns the fixed not-found answer with no
    citations. *)
Theorem empty_search_skips_synthesis query session_id q more w w1 w2 :
  vo_embed R [query] "voyage-2" "query" w = (Returned (q :: more), w1) ->
  aggregate R (search_pipeline q session_id) w1 = (Returned [], w2) ->
  search_and_generate_response R query session_id w
  = (Returned (not_found_answer, []), w2)
  /\ llm_calls (history w2) = llm_calls (history w)
  /\ history w2
     = Aggregate (search_pipeline q session_id)
       :: Embed [query] "voyage-2" "query" :: history w.
Proof.
  intros Hembed Hagg.
  assert (Hh : history w2
     = Aggregate (search_pipeline q session_id)
       :: Embed [query] "voyage-2" "query" :: history w).
  { rewrite vo_embed_run in Hembed. rewrite aggregate_run in Hagg.
    injection Hembed as _ <-. injection Hagg as _ <-. reflexivity. }
  split; [|split; [|exact Hh]].
  - rewrite search_and_generate_response_run, Hembed. cbn [index0].
    now rewrite Hagg.
  - rewrite Hh. reflexivity.
Qed.

End Query.

(** ** Index management *)

Section Indexes.

Variable Vec : Type.
Variable R : Remote Vec.

Implicit Types (w : World Vec) (ixs : list SearchIndexModel).

Lemma count_named_existsb name ixs :
  existsb (named name) ixs = false <-> count_named name ixs = 0.
Proof.
  unfold count_named. induction ixs as [|m ixs IH]; simpl.
  - tauto.
  - destruct (named name m); simpl.
    + split; intros H; discriminate.
    + exact IH.
Qed.

Lemma count_named_app name ixs m :
  count_named name (ixs ++ [m])%list =
  count_named name ixs + (if named name m then 1 else 0).
Proof.
  unfold count_named. rewrite filter_app, length_app. simpl.
  now destruct (named name m).
Qed.

Lemma count_named_dropped name ixs :
  count_named name (filter (fun idx => negb (named name idx)) ixs) = 0.
Proof.
  unfold count_named. induction ixs as [|m ixs IH]; simpl; auto.
  destruct (named name m) eqn:E; simpl; auto. now rewrite E.
Qed.

(** The body of the index block, step by step: list, test by name, and
    create only when no index of that name was listed. *)
Lemma ensure_index_body_run w :
  ensure_index_body R w =
  let w1 := record_call ListSearchIndexes w in
  match fault R (history w) ListSearchIndexes with
  | Some e => (Raised e, w1)
  | None =>
      if existsb (named "vector_index") (search_indexes w)
      then (Returned tt, st_write present_message w1)
      else
        let w2 := record_call (CreateSearchIndex search_index_model) w1 in
        match fault R (history w1) (CreateSearchIndex search_index_model) with
        | Some e => (Raised e, w2)
        | None =>
            (Returned tt,
             st_write created_message
               (set_search_indexes
                  (search_indexes w ++ [search_index_model])%list w2))
        end
  end.
Proof.
  unfold ensure_index_body, bind. rewrite list_search_indexes_run.
  cbv zeta. destruct (fault R (history w) ListSearchIndexes); auto.
  change (existsb (fun idx => String.eqb (idx_name idx) "vector_index")
                  (search_indexes w))
    with (existsb (named "vector_index") (search_indexes w)).
  destruct (existsb (named "vector_index") (search_indexes w)) eqn:E; auto.
  cbn [negb]. unfold create_search_index, bind, get. rewrite remote_run.
  destruct (fault R _ (CreateSearchIndex search_index_model)); auto.
  cbn [search_indexes record_call idx_name search_index_model].
  now rewrite E.
Qed.

Lemma ensure_index_run w :
  ensure_index R w =
  match ensure_index_body R w with
  | (Returned _, w') => (Returned tt, w')
  | (Raised e, w') =>
      (Returned tt,
       st_write stored_anyway_message (st_write (index_warning e) w'))
  end.
Proof.
  unfold ensure_index, try_except.
  destruct (ensure_index_body R w) as [[[]|e] w']; reflexivity.
Qed.

(** The index block never raises. *)
Lemma ensure_index_returns w : fst (ensure_index R w) = Returned tt.
Proof.
  rewrite ensure_index_run.
  now destruct (ensure_index_body R w) as [[[]|e] w'].
Qed.

(** The index block leaves the documents, the uuid source and the error
    messages alone. *)
Lemma ensure_index_body_frame w :
  let w' := snd (ensure_index_body R w) in
  collection w' = collection w /\ uuids_drawn w' = uuids_drawn w
  /\ filter is_error (page w') = filter is_error (page w)
  /\ session_state w' = session_state w.
Proof.
  rewrite ensure_index_body_run. cbv zeta.
  destruct (fault R (history w) _); [simpl; auto|].
  destruct (existsb _ _); [simpl; auto|].
  destruct (fault R _ _); simpl; auto.
Qed.

Lemma ensure_index_frame w :
  let w' := snd (ensure_index R w) in
  collection w' = collection w /\ uuids_drawn w' = uuids_drawn w
  /\ filter is_error (page w') = filter is_error (page w)
  /\ session_state w' = session_state w.
Proof.
  rewrite ensure_index_run.
  pose proof (ensure_index_body_frame w) as H. cbv zeta in H.
  destruct (ensure_index_body R w) as [[[]|e] w']; simpl in *; auto.
Qed.

(** Whatever the services do, the index block never takes a store with at
    most one index of that name to one with two. *)
Lemma ensure_index_never_duplicates w :
  count_named "vector_index" (search_indexes w) <= 1 ->
  count_named "vector_index" (search_indexes (snd (ensure_index R w))) <= 1.
Proof.
  intros Hle. rewrite ensure_index_run, ensure_index_body_run. cbv zeta.
  destruct (fault R (history w) _); [simpl; auto|].
  destruct (existsb _ _) eqn:E; [simpl; auto|].
  destruct (fault R _ _); [simpl; auto|].
  simpl. rewrite count_named_app.
  apply count_named_existsb in E. rewrite E. simpl. lia.
Qed.

(** C7. With the store reachable and at most one index of the name to
    start with, two calls of the index block in a row leave exactly one
    index of that name; the second call lists the indexes, finds the name,
    creates nothing and reports no error. *)
Theorem ensure_index_idempotent w :
  (forall h, fault R h ListSearchIndexes = None) ->
  (forall h m, fault R h (CreateSearchIndex m) = None) ->
  count_named "vector_index" (search_indexes w) <= 1 ->
  let w1 := snd (ensure_index R w) in
  let w2 := snd (ensure_index R w1) in
  count_named "vector_index" (search_indexes w1) = 1
  /\ count_named "vector_index" (search_indexes w2) = 1
  /\ search_indexes w2 = search_indexes w1
  /\ ensure_index R w1
     = (Returned tt,
        st_write present_message (record_call ListSearchIndexes w1))
  /\ filter is_create_search_index (history w2)
     = filter is_create_search_index (history w1)
  /\ filter is_warning (page w2) = filter is_warning (page w).
Proof.
  intros Hlist Hcreate Hle. cbv zeta.
  assert (H1 : count_named "vector_index"
                 (search_indexes (snd (ensure_index R w))) = 1
               /\ filter is_warning (page (snd (ensure_index R w)))
                  = filter is_warning (page w)).
  { rewrite ensure_index_run, ensure_index_body_run. cbv zeta.
    rewrite Hlist.
    destruct (existsb _ _) eqn:E.
    - simpl. split; auto.
      destruct (count_named "vector_index" (search_indexes w)) eqn:Ec.
      + apply count_named_existsb in Ec. congruence.
      + lia.
    - rewrite Hcreate. simpl. split; auto.
      rewrite count_named_app.
      apply count_named_existsb in E. now rewrite E. }
  destruct H1 as [H1 Hwarn1].
  assert (E1 : existsb (named "vector_index")
                 (search_indexes (snd (ensure_index R w))) = true).
  { destruct (existsb _ _) eqn:E; auto.
    apply count_named_existsb in E. lia. }
  assert (H2 : ensure_index R (snd (ensure_index R w))
     = (Returned tt,
        st_write present_message
          (record_call ListSearchIndexes (snd (ensure_index R w))))).
  { rewrite (ensure_index_run (snd (ensure_index R w))).
    rewrite ensure_index_body_run. cbv zeta.
    now rewrite Hlist, E1. }
  rewrite H2. simpl. auto 10.
Qed.

End Indexes.

(** ** Ingestion *)

Section Ingestion.

Variable Vec : Type.
Variable R : Remote Vec.

Implicit Types (w : World Vec) (docs : list (Doc Vec)).

(** The insertion block, step by step. *)
Lemma store_docs_run docs w :
  store_docs R docs w =
  match docs with
  | [] =>
      (Raised "documents must be a non-empty list",
       st_write (mkStMessage StError
                   "插入文檔時發生錯誤: documents must be a non-empty list") w)
  | _ :: _ =>
      let w1 := record_call (InsertMany docs) w in
      match fault R (history w) (InsertMany docs) with
      | Some e =>
          (Raised e,
           st_write (mkStMessage StError ("插入文檔時發生錯誤: " ++ e)%string)
             (set_collection
                (collection w
                 ++ firstn (partial_write R (history w) docs) docs)%list w1))
      | None =>
          (Returned tt,
           st_write (inserted_message (length docs))
             (set_collection (collection w ++ docs)%list w1))
      end
  end.
Proof.
  unfold store_docs, try_except, bind, insert_many.
  destruct docs as [|d docs]; [reflexivity|].
  destruct (fault R (history w) (InsertMany (d :: docs))); reflexivity.
Qed.

Lemma store_docs_returned docs w w' :
  store_docs R docs w = (Returned tt, w') ->
  collection w' = (collection w ++ docs)%list
  /\ uuids_drawn w' = uuids_drawn w
  /\ filter is_error (page w') = filter is_error (page w).
Proof.
  rewrite store_docs_run. destruct docs as [|d docs]; [discriminate|].
  cbv zeta.
  destruct (fault R (history w) (InsertMany (d :: docs))); [discriminate|].
  intros [= <-]. simpl. auto.
Qed.

(** The insertion block returns only for a non-empty list of documents
    whose write went through. *)
Lemma store_docs_returned_iff docs w :
  (exists w', store_docs R docs w = (Returned tt, w'))
  <-> docs <> [] /\ fault R (history w) (InsertMany docs) = None.
Proof.
  rewrite store_docs_run. destruct docs as [|d docs].
  - split; [intros [w' H]; discriminate | intros [H _]; congruence].
  - cbv zeta. destruct (fault R (history w) (InsertMany (d :: docs))).
    + split; [intros [w' H]; discriminate | intros [_ H]; discriminate].
    + split; [intros _; split; [discriminate|reflexivity] | eauto].
Qed.

(** Ingestion, step by step. *)
Lemma create_embeddings_and_store_run speaker_transcripts w :
  create_embeddings_and_store R speaker_transcripts w =
  let speaker_sents := map speaker_sent speaker_transcripts in
  match vo_embed R speaker_sents "voyage-2" "document" w with
  | (Raised e, w1) => (Raised e, w1)
  | (Returned embeds, w1) =>
      let session_id := uuid4 R (uuids_drawn w1) in
      let docs := build_docs speaker_sents embeds session_id in
      match store_docs R docs (draw_uuid w1) with
      | (Raised e, w2) => (Raised e, w2)
      | (Returned _, w2) =>
          (Returned (session_id, length docs), snd (ensure_index R w2))
      end
  end.
Proof.
  unfold create_embeddings_and_store, bind. cbv zeta.
  destruct (vo_embed R _ "voyage-2" "document" w) as [[embeds|e] w1]; auto.
  unfold uuid4_str, bind, get, modify, ret.
  destruct (store_docs R _ (draw_uuid w1)) as [[[]|e] w2]; auto.
  pose proof (ensure_index_returns R w2) as Hret.
  destruct (ensure_index R w2) as [o w3]. simpl in *. now subst o.
Qed.

Lemma vo_embed_returned texts model input_type w embeds w1 :
  vo_embed R texts model input_type w = (Returned embeds, w1) ->
  embeds = embeddings_of R (history w) texts input_type
  /\ w1 = record_call (Embed texts model input_type) w.
Proof.
  rewrite vo_embed_run.
  destruct (fault R (history w) _); [discriminate|].
  intros [= <- <-]. auto.
Qed.

(** The documents built from the zipped lists. *)
Lemma build_docs_length (texts : list string) (embeds : list Vec) sid :
  length (build_docs texts embeds sid)
  = Nat.min (length texts) (length embeds).
Proof. unfold build_docs. now rewrite length_map, length_combine. Qed.

Lemma build_docs_session (texts : list string) (embeds : list Vec) sid :
  Forall (fun d => d_session_id d = sid) (build_docs texts embeds sid).
Proof.
  unfold build_docs. apply Forall_forall. intros d Hd.
  apply in_map_iff in Hd. now destruct Hd as (p & <- & _).
Qed.

Lemma build_docs_nth (texts : list string) (embeds : list Vec) sid i :
  nth_error (build_docs texts embeds sid) i =
  match nth_error texts i, nth_error embeds i with
  | Some t, Some v => Some (mkDoc t v sid)
  | _, _ => None
  end.
Proof.
  unfold build_docs. revert embeds i.
  induction texts as [|t texts IH]; intros [|v embeds] [|i]; simpl; auto.
  now destruct (nth_error texts i).
Qed.

Lemma build_docs_texts (texts : list string) (embeds : list Vec) sid :
  map (@d_text Vec) (build_docs texts embeds sid)
  = firstn (length embeds) texts.
Proof.
  unfold build_docs. revert embeds.
  induction texts as [|t texts IH]; intros [|v embeds]; simpl; auto.
  now rewrite IH.
Qed.

(** Ingestion returns whenever the embedding goes through, there is a
    document to insert and the insertion goes through, whatever the index
    block does. *)
Lemma create_embeddings_and_store_succeeds speaker_transcripts w :
  let speaker_sents := map speaker_sent speaker_transcripts in
  let embeds := embeddings_of R (history w) speaker_sents "document" in
  let session_id := uuid4 R (uuids_drawn w) in
  let docs := build_docs speaker_sents embeds session_id in
  fault R (history w) (Embed speaker_sents "voyage-2" "document") = None ->
  docs <> [] ->
  fault R (Embed speaker_sents "voyage-2" "document" :: history w)
    (InsertMany docs) = None ->
  exists w',
    create_embeddings_and_store R speaker_transcripts w
    = (Returned (session_id, length docs), w')
    /\ collection w' = (collection w ++ docs)%list
    /\ session_state w' = session_state w.
Proof.
  intros sents embeds sid docs Hemb Hne Hins.
  rewrite create_embeddings_and_store_run. cbv zeta.
  rewrite vo_embed_run. fold sents. rewrite Hemb.
  cbn [uuids_drawn record_call]. fold embeds sid docs.
  rewrite store_docs_run.
  destruct docs as [|d ds] eqn:Hd; [congruence|].
  cbv zeta. cbn [history draw_uuid record_call]. rewrite Hins.
  eexists. split; [reflexivity|].
  match goal with
  | |- context [snd (ensure_index R ?w2)] =>
      destruct (ensure_index_frame R w2) as (Hc & _ & _ & Hs)
  end.
  rewrite Hc, Hs. split; reflexivity.
Qed.

(** C3. When the embedding client answers with one vector per text and the
    insertion goes through, ingestion returns the drawn session id and the
    number of utterances; the stored segments are, in order, the texts
    "{speaker}: {text}" of the utterances, all under that session id. *)
Theorem ingestion_stores_every_utterance speaker_transcripts embeds w w1 w2 :
  let speaker_sents := map speaker_sent speaker_transcripts in
  let session_id := uuid4 R (uuids_drawn w) in
  vo_embed R speaker_sents "voyage-2" "document" w = (Returned embeds, w1) ->
  length embeds = length speaker_transcripts ->
  store_docs R (build_docs speaker_sents embeds session_id) (draw_uuid w1)
  = (Returned tt, w2) ->
  exists stored w',
    create_embeddings_and_store R speaker_transcripts w
    = (Returned (session_id, length speaker_transcripts), w')
    /\ collection w' = (collection w ++ stored)%list
    /\ map (@d_text Vec) stored
       = map (fun u => (u_speaker u ++ ": " ++ u_text u)%string)
             speaker_transcripts
    /\ Forall (fun d => d_session_id d = session_id) stored
    /\ uuids_drawn w' = S (uuids_drawn w).
Proof.
  intros sents sid Hembed Hlen Hstore.
  destruct (vo_embed_returned _ _ _ _ Hembed) as [_ Hw1].
  assert (Hsid : uuid4 R (uuids_drawn w1) = sid) by now subst w1.
  destruct (store_docs_returned _ _ Hstore) as (Hcoll & Huuid & _).
  destruct (ensure_index_frame R w2) as (Hc & Hu & _).
  exists (build_docs sents embeds sid), (snd (ensure_index R w2)).
  split; [|split; [|split; [|split]]].
  - rewrite create_embeddings_and_store_run. cbv zeta.
    fold sents. rewrite Hembed, Hsid, Hstore.
    rewrite build_docs_length. unfold sents at 1.
    rewrite length_map, Hlen, Nat.min_id. reflexivity.
  - rewrite Hc, Hcoll. now subst w1.
  - rewrite build_docs_texts, Hlen. unfold sents.
    rewrite <- (length_map speaker_sent), firstn_all. reflexivity.
  - apply build_docs_session.
  - rewrite Hu, Huuid. now subst w1.
Qed.

(** C8. When the insertion went through and the body of the index block
    raises, ingestion still returns the session id and the count; the
    inserted segments stay in the collection, a warning is shown and no
    error is. *)
Theorem index_failure_is_only_a_warning
  speaker_transcripts embeds e w w1 w2 w3 :
  let speaker_sents := map speaker_sent speaker_transcripts in
  let session_id := uuid4 R (uuids_drawn w) in
  let docs := build_docs speaker_sents embeds session_id in
  vo_embed R speaker_sents "voyage-2" "document" w = (Returned embeds, w1) ->
  store_docs R docs (draw_uuid w1) = (Returned tt, w2) ->
  ensure_index_body R w2 = (Raised e, w3) ->
  let w' := st_write stored_anyway_message (st_write (index_warning e) w3) in
  create_embeddings_and_store R speaker_transcripts w
  = (Returned (session_id, length docs), w')
  /\ collection w' = (collection w ++ docs)%list
  /\ In (index_warning e) (page w')
  /\ filter is_error (page w') = filter is_error (page w).
Proof.
  intros sents sid docs Hembed Hstore Hbody w'.
  destruct (vo_embed_returned _ _ _ _ Hembed) as [_ Hw1].
  assert (Hsid : uuid4 R (uuids_drawn w1) = sid) by now subst w1.
  destruct (store_docs_returned _ _ Hstore) as (Hcoll & _ & Herr).
  pose proof (ensure_index_body_frame R w2) as Hframe.
  cbv zeta in Hframe. rewrite Hbody in Hframe.
  destruct Hframe as (Hc & _ & He & _). simpl in Hc, He.
  split; [|split; [|split]].
  - rewrite create_embeddings_and_store_run. cbv zeta.
    fold sents. rewrite Hembed, Hsid. fold docs. rewrite Hstore.
    rewrite ensure_index_run, Hbody. reflexivity.
  - subst w'. simpl. rewrite Hc, Hcoll. now subst w1.
  - subst w'. simpl. auto.
  - subst w'. simpl. rewrite He, Herr. now subst w1.
Qed.

(** Without a single pair there is nothing to insert: [insert_many]
    rejects the empty list and ingestion raises its [TypeError]. *)
Lemma ingestion_without_a_pair_raises speaker_transcripts embeds w w1 :
  let speaker_sents := map speaker_sent speaker_transcripts in
  vo_embed R speaker_sents "voyage-2" "document" w = (Returned embeds, w1) ->
  build_docs speaker_sents embeds (uuid4 R (uuids_drawn w)) = [] ->
  exists w',
    create_embeddings_and_store R speaker_transcripts w
    = (Raised "documents must be a non-empty list", w')
    /\ collection w' = collection w.
Proof.
  intros sents Hembed Hnil.
  destruct (vo_embed_returned _ _ _ _ Hembed) as [_ Hw1].
  assert (Hsid : uuid4 R (uuids_drawn w1) = uuid4 R (uuids_drawn w))
    by now subst w1.
  rewrite create_embeddings_and_store_run. cbv zeta. fold sents.
  rewrite Hembed, Hsid, Hnil, store_docs_run.
  eexists. split; [reflexivity|]. now subst w1.
Qed.

(** C10, as the code has it. The documents are the positional pairs of
    texts and returned vectors. When there is at least one pair and the
    insertion goes through, ingestion returns, the returned count is the
    number of documents inserted, the smaller of the two lengths, and with
    fewer vectors than texts the trailing texts are left out without any
    exception. *)
Theorem ingestion_pairs_up_to_the_shorter
  speaker_transcripts embeds w w1 :
  let speaker_sents := map speaker_sent speaker_transcripts in
  let session_id := uuid4 R (uuids_drawn w) in
  let docs := build_docs speaker_sents embeds session_id in
  vo_embed R speaker_sents "voyage-2" "document" w = (Returned embeds, w1) ->
  speaker_transcripts <> [] ->
  embeds <> [] ->
  fault R (history w1) (InsertMany docs) = None ->
  (exists w',
     create_embeddings_and_store R speaker_transcripts w
     = (Returned (session_id,
                  Nat.min (length speaker_transcripts) (length embeds)), w')
     /\ collection w' = (collection w ++ docs)%list)
  /\ length docs = Nat.min (length speaker_transcripts) (length embeds)
  /\ 0 < length docs
  /\ (forall i,
        nth_error docs i =
        match nth_error speaker_sents i, nth_error embeds i with
        | Some t, Some v => Some (mkDoc t v session_id)
        | _, _ => None
        end)
  /\ map (@d_text Vec) docs = firstn (length embeds) speaker_sents.
Proof.
  intros sents sid docs Hembed Hts Hes Hins.
  destruct (vo_embed_returned _ _ _ _ Hembed) as [Hembeds Hw1].
  assert (Hlen : length docs
                 = Nat.min (length speaker_transcripts) (length embeds)).
  { unfold docs. rewrite build_docs_length. unfold sents.
    now rewrite length_map. }
  assert (Hpos : 0 < length docs).
  { rewrite Hlen. destruct speaker_transcripts; [congruence|].
    destruct embeds; [congruence|]. simpl. lia. }
  assert (Hne : docs <> []).
  { intros Hnil. rewrite Hnil in Hpos. simpl in Hpos. lia. }
  split; [|split; [exact Hlen|split; [exact Hpos|split]]].
  - rewrite vo_embed_run in Hembed.
    destruct (fault R (history w) (Embed sents "voyage-2" "document"))
      eqn:Hfault; [discriminate|].
    destruct (create_embeddings_and_store_succeeds speaker_transcripts w)
      as (w' & Hrun & Hc & _).
    + exact Hfault.
    + fold sents. rewrite <- Hembeds. exact Hne.
    + fold sents. rewrite <- Hembeds. fold sid docs.
      rewrite Hw1 in Hins. exact Hins.
    + exists w'. fold sents in Hrun, Hc. rewrite <- Hembeds in Hrun, Hc.
      fold sid docs in Hrun, Hc. rewrite Hlen in Hrun. auto.
  - intros i. apply build_docs_nth.
  - apply build_docs_texts.
Qed.

End Ingestion.

(** ** Clearing the database *)

Section Clearing.

Variable Vec : Type.
Variable R : Remote Vec.

Implicit Types (w : World Vec).

(** The clean-up handler, step by step. *)
Lemma reset_run w :
  reset R w =
  let w0 := record_call DeleteMany w in
  match fault R (history w) DeleteMany with
  | Some e =>
      (Returned tt,
       st_write (mkStMessage StError ("清理資料庫時發生錯誤: " ++ e)%string) w0)
  | None =>
      let w1 := set_collection [] w0 in
      let w2 := record_call (DropSearchIndex "vector_index") w1 in
      let w3 :=
        match fault R (history w1) (DropSearchIndex "vector_index") with
        | Some _ => st_write absent_message w2
        | None =>
            if existsb (named "vector_index") (search_indexes w)
            then st_write dropped_message
                   (set_search_indexes
                      (filter (fun idx => negb (named "vector_index" idx))
                              (search_indexes w)) w2)
            else st_write absent_message w2
        end in
      (Returned tt,
       set_session_state (mkSessionState None None None)
         (st_write cleaned_message w3))
  end.
Proof.
  unfold reset, try_except, bind, delete_many, bind. rewrite remote_run.
  cbv zeta. destruct (fault R (history w) DeleteMany); auto.
  unfold modify, drop_search_index, bind, get. rewrite remote_run.
  cbn [history set_collection record_call search_indexes].
  destruct (fault R _ (DropSearchIndex "vector_index")); auto.
  destruct (existsb (named "vector_index") (search_indexes w)); auto.
Qed.

(** A search over an empty collection gets nothing back from the store. *)
Lemma run_search_pipeline_empty w (q : Vec) session_id :
  collection w = [] ->
  run_pipeline R w (search_pipeline q session_id) = Returned [].
Proof.
  intros Hc.
  assert (Hv : vector_search R w "vector_index" q "embedding" 5 = []).
  { unfold vector_search. rewrite Hc. now destruct (has_vector_index _ _ _). }
  unfold search_pipeline.
  destruct session_id as [s|]; [destruct (truthy (Some s))|];
    cbn [list_insert firstn skipn app run_pipeline run_stages];
    now rewrite Hv.
Qed.

Lemma search_over_empty_collection query session_id w answer citations w' :
  collection w = [] ->
  search_and_generate_response R query session_id w
  = (Returned (answer, citations), w') ->
  citations = []
  /\ (answer = not_found_answer
      \/ exists e, answer = ("搜索時發生錯誤: " ++ e)%string).
Proof.
  intros Hc. rewrite search_and_generate_response_run, vo_embed_run.
  destruct (fault R (history w) _); [discriminate|].
  destruct (index0 _) as [q|e]; [|discriminate].
  rewrite aggregate_run.
  destruct (fault R _ _) as [e|].
  - intros [= <- <- _]. split; [reflexivity | right; now exists e].
  - rewrite run_search_pipeline_empty by exact Hc.
    intros [= <- <- _]. auto.
Qed.

(** C9. When the delete goes through, the handler returns without an
    error message, no segment is left, and the session state is cleared;
    when the drop goes through as well no index of that name is left, and
    when there was no such index the indexes are as before. A search run
    right after it returns no citation. *)
Theorem reset_leaves_nothing_to_find w :
  fault R (history w) DeleteMany = None ->
  exists w',
    reset R w = (Returned tt, w')
    /\ collection w' = []
    /\ filter is_error (page w') = filter is_error (page w)
    /\ ss_session_id (session_state w') = None
    /\ (fault R (DeleteMany :: history w) (DropSearchIndex "vector_index")
        = None ->
        count_named "vector_index" (search_indexes w') = 0)
    /\ (count_named "vector_index" (search_indexes w) = 0 ->
        search_indexes w' = search_indexes w)
    /\ (forall query session_id answer citations w'',
          search_and_generate_response R query session_id w'
          = (Returned (answer, citations), w'') ->
          citations = []
          /\ (answer = not_found_answer
              \/ exists e, answer = ("搜索時發生錯誤: " ++ e)%string)).
Proof.
  intros Hdel. rewrite reset_run, Hdel. cbv zeta. clear Hdel.
  cbn [history set_collection record_call].
  destruct (fault R (DeleteMany :: history w)
              (DropSearchIndex "vector_index")) as [e|] eqn:Hdrop;
    [|destruct (existsb (named "vector_index") (search_indexes w)) eqn:E];
    (eexists; split; [reflexivity|];
     split; [reflexivity|]; split; [reflexivity|]; split; [reflexivity|];
     split; [|split;
       [|intros query session_id answer citations w'';
         apply search_over_empty_collection; reflexivity]]).
  - discriminate.
  - reflexivity.
  - intros _. apply count_named_dropped.
  - intros Hnone. apply count_named_existsb in Hnone. congruence.
  - intros _. now apply count_named_existsb.
  - reflexivity.
Qed.

(** The handler never raises: a failure of the delete is shown as an error
    message. *)
Lemma reset_returns w : fst (reset R w) = Returned tt.
Proof.
  rewrite reset_run. cbv zeta. now destruct (fault R (history w) DeleteMany).
Qed.

End Clearing.

(** * The theorems at concrete inputs *)

Lemma scoped_search_witness :
  Forall (fun r =>
            r_session_id r = "A" /\
            exists d, In d (collection mixed_sessions) /\
                      d_session_id d = "A" /\ d_text d = r_text r)
         mixed_results
  /\ (forall other r,
        other <> "A" -> In r mixed_results -> r_session_id r <> other).
Proof.
  apply (@scoped_search_returns_only_that_session Z demo "q" "A" "an answer"
           mixed_results mixed_sessions (after_answer demo mixed_sessions)).
  - discriminate.
  - vm_compute. reflexivity.
Defined.

(** C2, as stated, fails. Session A owns two segments of [two_sessions],
    yet a search scoped to A finds none: the five nearest segments of the
    whole collection all belong to session B, and the filter runs on those
    five. Filtering first would return both segments of A. *)
Lemma scoped_search_is_not_a_prefilter :
  exists citations w',
    search_and_generate_response demo "q" (Some "A") two_sessions
    = (Returned (not_found_answer, citations), w')
    /\ citations = []
    /\ map (@r_text Z) (search_prefilter demo two_sessions 1%Z 5 "A")
       = ["Speaker A: a far"; "Speaker A: a farther"]
    /\ citations <> search_prefilter demo two_sessions 1%Z 5 "A".
Proof.
  exists [], (after_answer demo two_sessions).
  split; [vm_compute; reflexivity|].
  split; [reflexivity|].
  split; [vm_compute; reflexivity|].
  vm_compute. discriminate.
Qed.

Lemma scoped_search_filters_after_limit_witness :
  mixed_results
  = map (@project Z)
      (filter (matches "A")
         (vector_search demo mixed_sessions "vector_index" 1%Z "embedding" 5))
  /\ length mixed_results <= 5
  /\ (exists rest,
        search_prefilter demo mixed_sessions 1%Z 5 "A"
        = (mixed_results ++ rest)%list)
  /\ exists answer w',
       search_and_generate_response demo "q" (Some "A") mixed_sessions
       = (Returned (answer, mixed_results), w').
Proof.
  apply (@scoped_search_filters_after_limit Z demo "q" "A" 1%Z []
           mixed_sessions (after_embed demo mixed_sessions)
           (after_search demo mixed_sessions) mixed_results).
  - discriminate.
  - vm_compute. reflexivity.
  - vm_compute. reflexivity.
Defined.

(** C4, as stated, fails twice over. A failure of the query embedding is
    raised to the caller, and a failure of the synthesis returns the
    retrieved citations, not an empty list. *)
Lemma query_failures_counterexample :
  fst (search_and_generate_response embed_down "q" (Some "A") mixed_sessions)
  = Raised "voyage unreachable"
  /\ fst (search_and_generate_response llm_down "q" (Some "A") mixed_sessions)
     = Returned ("生成回答時發生錯誤: quota exceeded", mixed_results)
  /\ mixed_results <> [].
Proof.
  split; [vm_compute; reflexivity|].
  split; [vm_compute; reflexivity|].
  discriminate.
Qed.

Lemma query_failures_become_answers_witness :
  exists answer citations w',
    search_and_generate_response store_down "q" (Some "A") mixed_sessions
    = (Returned (answer, citations), w')
    /\ answer = "搜索時發生錯誤: connection refused"
    /\ citations = [].
Proof.
  destruct (@query_failures_become_answers Z store_down "q" (Some "A") 1%Z []
              mixed_sessions (after_embed store_down mixed_sessions))
    as (answer & citations & w' & Hrun & Hstore & _).
  - vm_compute. reflexivity.
  - exists answer, citations, w'. split; [exact Hrun|].
    apply (Hstore "connection refused" (after_search store_down mixed_sessions)).
    vm_compute. reflexivity.
Defined.

Lemma synthesis_failure_keeps_citations_witness :
  search_and_generate_response llm_down "q" (Some "A") mixed_sessions
  = (Returned ("生成回答時發生錯誤: quota exceeded", mixed_results),
     after_answer llm_down mixed_sessions).
Proof.
  apply (@synthesis_failure_keeps_citations Z llm_down "q" (Some "A") 1%Z []
           mixed_results "quota exceeded" mixed_sessions
           (after_embed llm_down mixed_sessions)
           (after_search llm_down mixed_sessions)
           (after_answer llm_down mixed_sessions)).
  - vm_compute. reflexivity.
  - vm_compute. reflexivity.
  - discriminate.
  - vm_compute. reflexivity.
Defined.

Lemma empty_search_skips_synthesis_witness :
  search_and_generate_response demo "q" (Some "A") two_sessions
  = (Returned (not_found_answer, []), after_search demo two_sessions)
  /\ llm_calls (history (after_search demo two_sessions))
     = llm_calls (history two_sessions)
  /\ history (after_search demo two_sessions)
     = Aggregate (search_pipeline 1%Z (Some "A"))
       :: Embed ["q"] "voyage-2" "query" :: history two_sessions.
Proof.
  apply (@empty_search_skips_synthesis Z demo "q" (Some "A") 1%Z []
           two_sessions (after_embed demo two_sessions)
           (after_search demo two_sessions)).
  - vm_compute. reflexivity.
  - vm_compute. reflexivity.
Defined.

Lemma ensure_index_idempotent_witness :
  count_named "vector_index"
    (search_indexes (snd (ensure_index demo (snd (ensure_index demo empty_world)))))
  = 1.
Proof.
  refine (proj1 (proj2 (@ensure_index_idempotent Z demo empty_world _ _ _))).
  - intros h. reflexivity.
  - intros h m. reflexivity.
  - unfold count_named. simpl. lia.
Defined.

Lemma ingestion_stores_every_utterance_witness :
  exists stored w',
    create_embeddings_and_store demo demo_transcripts empty_world
    = (Returned ("session-0", 2), w')
    /\ collection w' = stored
    /\ map (@d_text Z) stored = ["Speaker A: hello"; "Speaker B: world"]
    /\ Forall (fun d => d_session_id d = "session-0") stored
    /\ uuids_drawn w' = 1.
Proof.
  apply (@ingestion_stores_every_utterance Z demo demo_transcripts
           (demo_embeddings demo_sents) empty_world
           (ingest_embedded demo) (ingest_stored demo)).
  - vm_compute. reflexivity.
  - reflexivity.
  - vm_compute. reflexivity.
Defined.

Lemma index_failure_is_only_a_warning_witness :
  exists w',
    create_embeddings_and_store index_down demo_transcripts empty_world
    = (Returned ("session-0", 2), w')
    /\ map (@d_text Z) (collection w')
       = ["Speaker A: hello"; "Speaker B: world"]
    /\ In (index_warning "not authorized") (page w')
    /\ filter is_error (page w') = [].
Proof.
  destruct (@index_failure_is_only_a_warning Z index_down demo_transcripts
              (demo_embeddings demo_sents) "not authorized" empty_world
              (ingest_embedded index_down) (ingest_stored index_down)
              (record_call ListSearchIndexes (ingest_stored index_down)))
    as (Hrun & Hcoll & Hwarn & Herr).
  - vm_compute. reflexivity.
  - vm_compute. reflexivity.
  - vm_compute. reflexivity.
  - eexists. split; [exact Hrun|]. split; [|split].
    + rewrite Hcoll. vm_compute. reflexivity.
    + exact Hwarn.
    + exact Herr.
Defined.

Lemma reset_leaves_nothing_to_find_witness :
  exists w',
    reset demo two_sessions = (Returned tt, w')
    /\ collection w' = []
    /\ count_named "vector_index" (search_indexes w') = 0
    /\ ss_session_id (session_state w') = None.
Proof.
  destruct (@reset_leaves_nothing_to_find Z demo two_sessions)
    as (w' & Hrun & Hcoll & _ & Hss & Hdrop & _).
  - reflexivity.
  - exists w'. split; [exact Hrun|]. split; [exact Hcoll|].
    split; [|exact Hss]. apply Hdrop. reflexivity.
Defined.

(** C10, as stated, fails at its boundary. When the embedding client
    returns no vector for the two texts, no document is built, and
    [insert_many] raises on the empty list: the texts are not dropped in
    silence, ingestion fails. *)
Lemma zero_vectors_are_an_error :
  embeddings_of no_vectors [] demo_sents "document" = []
  /\ length demo_sents = 2
  /\ create_embeddings_and_store no_vectors demo_transcripts empty_world
     = (Raised "documents must be a non-empty list",
        st_write (mkStMessage StError
                    "插入文檔時發生錯誤: documents must be a non-empty list")
          (draw_uuid (ingest_embedded no_vectors))).
Proof.
  split; [reflexivity|]. split; [reflexivity|]. vm_compute. reflexivity.
Qed.

Lemma ingestion_pairs_up_to_the_shorter_witness :
  exists w',
    create_embeddings_and_store short_embedder demo_transcripts empty_world
    = (Returned ("session-0", 1), w')
    /\ map (@d_text Z) (collection w') = ["Speaker A: hello"].
Proof.
  destruct (@ingestion_pairs_up_to_the_shorter Z short_embedder
              demo_transcripts (firstn 1 (demo_embeddings demo_sents))
              empty_world (ingest_embedded short_embedder))
    as ((w' & Hrun & Hcoll) & _).
  - vm_compute. reflexivity.
  - discriminate.
  - discriminate.
  - reflexivity.
  - exists w'. split; [exact Hrun|]. rewrite Hcoll. vm_compute. reflexivity.
Defined.

(** The empty string is a session id that [if session_id:] reads as
    absent: such a search is not scoped. *)
Example empty_session_id_is_unscoped :
  search_pipeline 1%Z (Some "") = search_pipeline 1%Z None
  /\ exists answer citations w',
       search_and_generate_response demo "q" (Some "") mixed_sessions
       = (Returned (answer, citations), w')
       /\ map (@r_session_id Z) citations = ["A"; "B"; "A"].
Proof.
  split; [reflexivity|].
  do 3 eexists. split; [vm_compute; reflexivity|]. reflexivity.
Qed.

(** The end-to-end scenario of the specification. *)
Example ingest_then_ask :
  exists w answer citations w',
    create_embeddings_and_store demo demo_transcripts empty_world
    = (Returned ("session-0", 2), w)
    /\ map (@d_text Z) (collection w) = ["Speaker A: hello"; "Speaker B: world"]
    /\ count_named "vector_index" (search_indexes w) = 1
    /\ search_and_generate_response demo "q" (Some "session-0") w
       = (Returned (answer, citations), w')
    /\ map (@r_text Z) citations = ["Speaker A: hello"; "Speaker B: world"].
Proof.
  do 4 eexists.
  split; [vm_compute; reflexivity|].
  split; [reflexivity|]. split; [reflexivity|].
  split; [vm_compute; reflexivity|]. reflexivity.
Qed.

(** * Further properties of the query pipeline *)

Section QueryPipeline.

Variable Vec : Type.
Variable R : Remote Vec.

Implicit Types (w : World Vec) (q : Vec) (results : list (Row Vec)).

Lemma generate_answer_run prompt w :
  generate_answer R prompt w =
  (match fault R (history w) (GenerateContent "gemini-2.0-flash-exp" prompt) with
   | Some e => Raised e
   | None =>
       match index0 (candidates_of R (history w) prompt) with
       | Returned parts => index0 parts
       | Raised e => Raised e
       end
   end, record_call (GenerateContent "gemini-2.0-flash-exp" prompt) w).
Proof.
  unfold generate_answer, bind, lift. rewrite generate_content_run.
  destruct (fault R (history w) _); auto.
  destruct (index0 (candidates_of R (history w) prompt)); auto.
Qed.

(** What any search gets back from the store when the call goes through. *)
Lemma run_search_pipeline w q session_id :
  run_pipeline R w (search_pipeline q session_id) =
  Returned (map (@project Vec)
              (scoped session_id
                 (vector_search R w "vector_index" q "embedding" 5))).
Proof.
  unfold search_pipeline, scoped.
  destruct session_id as [s|]; [destruct (truthy (Some s))|]; reflexivity.
Qed.

Lemma scoped_In session_id (r : Row Vec) rows :
  In r (scoped session_id rows) -> In r rows.
Proof.
  unfold scoped. destruct session_id as [s|]; auto.
  destruct (truthy (Some s)); auto.
  intros H. apply filter_In in H. tauto.
Qed.

Lemma scoped_length session_id (rows : list (Row Vec)) :
  length (scoped session_id rows) <= length rows.
Proof.
  unfold scoped. destruct session_id as [s|]; auto.
  destruct (truthy (Some s)); auto. apply filter_length_le.
Qed.

(** The citations of any search: none, or the projected rows of the five
    best matches, restricted to the session when one is given. *)
Lemma search_citations query session_id w answer results w' :
  search_and_generate_response R query session_id w
  = (Returned (answer, results), w') ->
  exists q,
    results = [] \/
    results = map (@project Vec)
                (scoped session_id
                   (vector_search R w "vector_index" q "embedding" 5)).
Proof.
  rewrite search_and_generate_response_run, vo_embed_run.
  destruct (fault R (history w) _); [discriminate|].
  destruct (index0 _) as [q|e]; [|discriminate].
  rewrite aggregate_run.
  destruct (fault R _ _).
  - intros [= _ <- _]. exists q. now left.
  - rewrite run_search_pipeline.
    destruct (map _ _) as [|r rs] eqn:E.
    + intros [= _ <- _]. exists q. now left.
    + cbv zeta. destruct (generate_answer R _ _) as [[a|e] w3];
        intros [= _ <- _]; exists q; right; now rewrite <- E.
Qed.

(** The query pipeline leaves the documents and the page alone. *)
Lemma search_frame query session_id w :
  let w' := snd (search_and_generate_response R query session_id w) in
  collection w' = collection w /\ page w' = page w.
Proof.
  cbv zeta. rewrite search_and_generate_response_run, vo_embed_run.
  destruct (fault R (history w) _); [simpl; auto 10|].
  destruct (index0 _) as [q|e]; [|simpl; auto 10].
  rewrite aggregate_run.
  destruct (fault R _ _); [simpl; auto 10|].
  destruct (run_pipeline R _ _) as [[|r rs]|e]; [simpl; auto 10| |simpl; auto 10].
  cbv zeta. rewrite generate_answer_run.
  destruct (fault R _ _); [simpl; auto 10|].
  destruct (index0 (candidates_of R _ _)) as [parts|e]; [|simpl; auto 10].
  destruct (index0 parts); simpl; auto 10.
Qed.

(** The query pipeline only reads: whatever happens, it leaves the
    documents, the indexes, the page, the uuid source and the session state
    as they were, and it makes no writing call on the store. *)
Theorem search_only_reads query session_id w :
  let w' := snd (search_and_generate_response R query session_id w) in
  collection w' = collection w
  /\ search_indexes w' = search_indexes w
  /\ page w' = page w
  /\ uuids_drawn w' = uuids_drawn w
  /\ session_state w' = session_state w
  /\ filter is_store_write (history w') = filter is_store_write (history w).
Proof.
  cbv zeta. rewrite search_and_generate_response_run, vo_embed_run.
  destruct (fault R (history w) _); [simpl; auto 10|].
  destruct (index0 _) as [q|e]; [|simpl; auto 10].
  rewrite aggregate_run.
  destruct (fault R _ _); [simpl; auto 10|].
  destruct (run_pipeline R _ _) as [[|r rs]|e]; [simpl; auto 10| |simpl; auto 10].
  cbv zeta. rewrite generate_answer_run.
  destruct (fault R _ _); [simpl; auto 10|].
  destruct (index0 (candidates_of R _ _)) as [parts|e]; [|simpl; auto 10].
  destruct (index0 parts); simpl; auto 10.
Qed.

(** The citations of any search are scored against the vector that the
    embedding client returned first for the query text. *)
Lemma search_citations_of_query query session_id w answer results w' :
  search_and_generate_response R query session_id w
  = (Returned (answer, results), w') ->
  exists q more,
    fst (vo_embed R [query] "voyage-2" "query" w) = Returned (q :: more)
    /\ (results = [] \/
        results = map (@project Vec)
                    (scoped session_id
                       (vector_search R w "vector_index" q "embedding" 5))).
Proof.
  rewrite search_and_generate_response_run.
  destruct (vo_embed R [query] "voyage-2" "query" w)
    as [[[|q more]|e] w1] eqn:Hembed; cbn [index0]; try discriminate.
  destruct (vo_embed_returned _ _ _ _ _ Hembed) as [_ ->].
  rewrite aggregate_run.
  destruct (fault R _ _).
  - intros [= _ <- _]. exists q, more. auto.
  - rewrite run_search_pipeline.
    destruct (map _ _) as [|r rs] eqn:E.
    + intros [= _ <- _]. exists q, more. auto.
    + cbv zeta. destruct (generate_answer R _ _) as [[a|e] w3];
        intros [= _ <- _]; exists q, more; split; auto; right;
        now rewrite <- E.
Qed.

(** Whatever the session id, a search returns at most five citations,
    and every citation is a stored document: its text and session id, no
    embedding, and as its score the similarity of the document to the
    query vector, the first embedding returned for the query text. *)
Theorem citations_are_at_most_five_stored_segments
  query session_id answer results w w' :
  search_and_generate_response R query session_id w
  = (Returned (answer, results), w') ->
  length results <= 5
  /\ exists q more,
       fst (vo_embed R [query] "voyage-2" "query" w) = Returned (q :: more)
       /\ Forall (fun r =>
                    r_embedding r = None /\
                    exists d, In d (collection w)
                              /\ r_text r = d_text d
                              /\ r_session_id r = d_session_id d
                              /\ r_score r
                                 = Some (similarity R q (d_embedding d)))
                 results.
Proof.
  intros Hrun.
  destruct (search_citations_of_query _ _ _ Hrun)
    as (q & more & Hq & [-> | ->]).
  - split; [simpl; lia|]. exists q, more. split; [exact Hq|constructor].
  - split.
    + rewrite length_map.
      eapply Nat.le_trans; [apply scoped_length | apply vector_search_length].
    + exists q, more. split; [exact Hq|].
      apply Forall_forall. intros r Hr.
      apply in_map_iff in Hr. destruct Hr as (r0 & <- & Hr0).
      apply scoped_In, vector_search_In in Hr0.
      destruct Hr0 as (d & Hd & ->). simpl. split; auto.
      exists d. auto.
Qed.

(** The query pipeline raises exactly when the embedding step delivers no
    query vector (the call fails, or its list of embeddings is empty); it
    then stops right after that call, before any store or model call. *)
Theorem search_raises_only_without_query_vector query session_id w :
  let embedded := record_call (Embed [query] "voyage-2" "query") w in
  match fst (vo_embed R [query] "voyage-2" "query" w) with
  | Returned (_ :: _) =>
      exists answer citations w',
        search_and_generate_response R query session_id w
        = (Returned (answer, citations), w')
  | Returned [] =>
      search_and_generate_response R query session_id w
      = (Raised "list index out of range", embedded)
  | Raised e =>
      search_and_generate_response R query session_id w = (Raised e, embedded)
  end.
Proof.
  cbv zeta. rewrite search_and_generate_response_run, vo_embed_run.
  destruct (fault R (history w) _); [reflexivity|]. cbn [fst].
  destruct (embeddings_of R (history w) [query] "query") as [|q more];
    [reflexivity|].
  cbn [index0].
  destruct (aggregate R _ _) as [[[|r rs]|e] w2]; eauto.
  cbv zeta. destruct (generate_answer R _ w2) as [[a|e] w3]; eauto.
Qed.


Lemma rank_keeps_length (l : list (Row Vec)) : length (rank l) = length l.
Proof.
  assert (Hins : forall (r : Row Vec) l',
             length (insert_ranked r l') = S (length l')).
  { intros r l'. induction l' as [|r' l' IH]; simpl; auto.
    destruct (Qle_bool (r_meta r') (r_meta r)); simpl; auto. }
  induction l as [|r l IH]; simpl; auto.
  rewrite Hins. now f_equal.
Qed.

(** A search without a session id (none, or the empty string) is answered
    from the whole collection: with the index in place it gets five
    results, or all the documents when there are fewer. *)
Theorem unscoped_search_draws_on_every_session
  query session_id q more results w w1 w2 :
  truthy session_id = false ->
  has_vector_index "vector_index" "embedding" (search_indexes w) = true ->
  vo_embed R [query] "voyage-2" "query" w = (Returned (q :: more), w1) ->
  aggregate R (search_pipeline q session_id) w1 = (Returned results, w2) ->
  length results = Nat.min 5 (length (collection w))
  /\ forall r, In r results ->
       exists d, In d (collection w) /\ r_text r = d_text d
                 /\ r_session_id r = d_session_id d.
Proof.
  intros Hfalsy Hindex Hembed Hagg.
  rewrite vo_embed_run in Hembed. rewrite aggregate_run in Hagg.
  destruct (fault R (history w) _); [discriminate|].
  injection Hembed as _ <-.
  destruct (fault R _ _); [discriminate|].
  rewrite run_search_pipeline in Hagg. injection Hagg as <- _.
  assert (Hscope : forall rows : list (Row Vec), scoped session_id rows = rows).
  { intros rows. unfold scoped. destruct session_id; auto.
    now rewrite Hfalsy. }
  rewrite Hscope. split.
  - rewrite length_map. unfold vector_search.
    cbn [search_indexes record_call collection]. rewrite Hindex.
    now rewrite length_firstn, rank_keeps_length, length_map.
  - intros r Hr. apply in_map_iff in Hr. destruct Hr as (r0 & <- & Hr0).
    apply vector_search_In in Hr0. destruct Hr0 as (d & Hd & ->).
    exists d. auto.
Qed.

End QueryPipeline.

(** * Further properties of ingestion and of the index block *)

Section IngestionFailures.

Variable Vec : Type.
Variable R : Remote Vec.

Implicit Types (w : World Vec) (docs : list (Doc Vec)).

Lemma vo_embed_raised texts model input_type w e w1 :
  vo_embed R texts model input_type w = (Raised e, w1) ->
  fault R (history w) (Embed texts model input_type) = Some e
  /\ w1 = record_call (Embed texts model input_type) w.
Proof.
  rewrite vo_embed_run.
  destruct (fault R (history w) _); [|discriminate].
  intros [= <- <-]. auto.
Qed.

(** When the document embedding fails, ingestion raises the same
    exception before anything is written: no document, no index, no uuid
    drawn, no message, and the embedding call is the only call made. *)
Theorem embedding_failure_writes_nothing speaker_transcripts e w w1 :
  vo_embed R (map speaker_sent speaker_transcripts) "voyage-2" "document" w
  = (Raised e, w1) ->
  create_embeddings_and_store R speaker_transcripts w = (Raised e, w1)
  /\ collection w1 = collection w
  /\ search_indexes w1 = search_indexes w
  /\ uuids_drawn w1 = uuids_drawn w
  /\ page w1 = page w
  /\ history w1
     = Embed (map speaker_sent speaker_transcripts) "voyage-2" "document"
       :: history w.
Proof.
  intros Hembed. split.
  - rewrite create_embeddings_and_store_run. cbv zeta. now rewrite Hembed.
  - destruct (vo_embed_raised _ _ _ _ Hembed) as [_ ->]. simpl. auto.
Qed.

Lemma store_docs_by_insert docs w :
  store_docs R docs w =
  match insert_many R docs w with
  | (Returned _, w') =>
      (Returned tt, st_write (inserted_message (length docs)) w')
  | (Raised e, w') =>
      (Raised e,
       st_write (mkStMessage StError ("插入文檔時發生錯誤: " ++ e)%string) w')
  end.
Proof.
  unfold store_docs, try_except, bind.
  destruct (insert_many R docs w) as [[[]|e] w']; reflexivity.
Qed.

(** A returning [insert_many] wrote every document, and there was one. *)
Lemma insert_many_returned docs w w' :
  insert_many R docs w = (Returned tt, w') ->
  collection w' = (collection w ++ docs)%list
  /\ docs <> []
  /\ fault R (history w) (InsertMany docs) = None
  /\ w' = set_collection (collection w ++ docs)%list
            (record_call (InsertMany docs) w).
Proof.
  unfold insert_many. destruct docs as [|d docs]; [discriminate|].
  destruct (fault R (history w) (InsertMany (d :: docs))); [discriminate|].
  intros [= <-]. repeat split; auto. discriminate.
Qed.

Lemma insert_many_session docs w :
  session_state (snd (insert_many R docs w)) = session_state w.
Proof.
  unfold insert_many. destruct docs as [|d docs]; [reflexivity|].
  now destruct (fault R (history w) (InsertMany (d :: docs))).
Qed.

(** What a failed [insert_many] leaves behind. *)
Lemma insert_many_raised docs w e w' :
  insert_many R docs w = (Raised e, w') ->
  page w' = page w
  /\ search_indexes w' = search_indexes w
  /\ (exists k, collection w' = (collection w ++ firstn k docs)%list)
  /\ (docs <> [] -> history w' = InsertMany docs :: history w)
  /\ (docs = [] -> history w' = history w).
Proof.
  unfold insert_many. destruct docs as [|d docs].
  - intros [= _ <-]. repeat split; auto.
    + exists 0. now rewrite app_nil_r.
    + congruence.
  - destruct (fault R (history w) (InsertMany (d :: docs))); [|discriminate].
    intros [= _ <-]. simpl. repeat split; eauto. discriminate.
Qed.

(** When [insert_many] fails, by an error of the store or because there is
    no document to insert, ingestion shows the error and raises it again:
    no session id is returned, nothing is called afterwards (the index
    block is not run), and of the new documents at most a leading part is
    in the collection. *)
Theorem insert_failure_is_raised speaker_transcripts embeds e w w1 w1' :
  let speaker_sents := map speaker_sent speaker_transcripts in
  let docs := build_docs speaker_sents embeds (uuid4 R (uuids_drawn w)) in
  vo_embed R speaker_sents "voyage-2" "document" w = (Returned embeds, w1) ->
  insert_many R docs (draw_uuid w1) = (Raised e, w1') ->
  exists w2,
    create_embeddings_and_store R speaker_transcripts w = (Raised e, w2)
    /\ page w2
       = mkStMessage StError ("插入文檔時發生錯誤: " ++ e)%string :: page w
    /\ history w2 = history w1'
    /\ (docs <> [] -> history w2 = InsertMany docs :: history w1)
    /\ (docs = [] -> history w2 = history w1)
    /\ search_indexes w2 = search_indexes w
    /\ exists k, collection w2 = (collection w ++ firstn k docs)%list.
Proof.
  intros sents docs Hembed Hinsert.
  destruct (vo_embed_returned _ _ _ _ _ Hembed) as [_ Hw1].
  assert (Hsid : uuid4 R (uuids_drawn w1) = uuid4 R (uuids_drawn w))
    by now subst w1.
  destruct (insert_many_raised _ _ Hinsert) as (Hp & Hi & [k Hk] & Hh & Hh0).
  rewrite create_embeddings_and_store_run. cbv zeta. fold sents.
  rewrite Hembed, Hsid. fold docs. rewrite store_docs_by_insert, Hinsert.
  eexists. split; [reflexivity|]. cbn [page history search_indexes
    collection st_write].
  rewrite Hp, Hi, Hk. subst w1.
  split; [reflexivity|]. split; [reflexivity|].
  split; [exact Hh|]. split; [exact Hh0|]. split; [reflexivity|].
  exists k. reflexivity.
Qed.

(** Whatever happens, ingestion only appends: the documents that were in
    the collection are still there, in place and unchanged, and whatever
    was added is a leading part of the new texts under the drawn id. *)
Theorem ingestion_only_appends speaker_transcripts w :
  let w' := snd (create_embeddings_and_store R speaker_transcripts w) in
  exists added,
    collection w' = (collection w ++ added)%list
    /\ Forall (fun d => d_session_id d = uuid4 R (uuids_drawn w)) added
    /\ exists k,
         map (@d_text Vec) added
         = firstn k (map speaker_sent speaker_transcripts).
Proof.
  cbv zeta. rewrite create_embeddings_and_store_run. cbv zeta.
  rewrite vo_embed_run.
  destruct (fault R (history w) _).
  - exists []. simpl. rewrite app_nil_r. split; [reflexivity|].
    split; [constructor|]. exists 0. reflexivity.
  - rewrite store_docs_by_insert.
    cbn [uuids_drawn record_call].
    set (embeds := embeddings_of R (history w) _ "document").
    set (sents := map speaker_sent speaker_transcripts).
    set (sid := uuid4 R (uuids_drawn w)).
    set (w0 := draw_uuid (record_call (Embed sents "voyage-2" "document") w)).
    assert (Hpart : forall k,
              Forall (fun d => d_session_id d = sid)
                     (firstn k (build_docs sents embeds sid))
              /\ exists k',
                   map (@d_text Vec) (firstn k (build_docs sents embeds sid))
                   = firstn k' sents).
    { intros k. split.
      - apply Forall_forall. intros d Hd. apply firstn_In in Hd.
        pose proof (build_docs_session sents embeds sid) as Hall.
        rewrite Forall_forall in Hall. now apply Hall.
      - exists (Nat.min k (length embeds)).
        now rewrite <- firstn_map, build_docs_texts, firstn_firstn. }
    destruct (insert_many R (build_docs sents embeds sid) w0)
      as [[[]|e] w1] eqn:Hins.
    + destruct (insert_many_returned _ _ Hins) as [Hc _].
      exists (build_docs sents embeds sid). cbn [snd].
      destruct (ensure_index_frame R
                  (st_write (inserted_message
                               (length (build_docs sents embeds sid))) w1))
        as [Hc' _].
      split; [rewrite Hc'; exact Hc|].
      split; [apply build_docs_session|].
      exists (length embeds). apply build_docs_texts.
    + destruct (insert_many_raised _ _ Hins) as (_ & _ & [k Hk] & _).
      exists (firstn k (build_docs sents embeds sid)). cbn [snd].
      split; [exact Hk|]. apply Hpart.
Qed.

(** Whatever the store does, the index block attempts a creation only
    after a listing that went through and showed no index of the name;
    otherwise its only call is the listing. *)
Theorem index_is_created_only_when_listed_absent w :
  let w' := snd (ensure_index R w) in
  history w' = ListSearchIndexes :: history w
  \/ (history w'
      = CreateSearchIndex search_index_model :: ListSearchIndexes :: history w
      /\ fault R (history w) ListSearchIndexes = None
      /\ count_named "vector_index" (search_indexes w) = 0).
Proof.
  cbv zeta. rewrite ensure_index_run, ensure_index_body_run. cbv zeta.
  destruct (fault R (history w) ListSearchIndexes); [now left|].
  destruct (existsb _ _) eqn:E; [now left|].
  right. apply count_named_existsb in E.
  destruct (fault R _ _); simpl; auto.
Qed.

End IngestionFailures.

(** * Properties of the upload handler *)

Section Upload.

Variable Vec : Type.
Variable R : Remote Vec.

Implicit Types (w : World Vec).

Lemma transcribe_audio_run path w :
  transcribe_audio R path w =
  (match fault R (history w) (Transcribe path) with
   | Some e => Raised e
   | None => Returned (labelled (utterances_of R path))
   end, record_call (Transcribe path) w).
Proof.
  unfold transcribe_audio, transcribe, bind, ret. rewrite remote_run.
  now destruct (fault R (history w) _).
Qed.

(** Ingestion never touches the session state. *)
Lemma create_embeddings_and_store_session speaker_transcripts w :
  session_state (snd (create_embeddings_and_store R speaker_transcripts w))
  = session_state w.
Proof.
  rewrite create_embeddings_and_store_run. cbv zeta. rewrite vo_embed_run.
  destruct (fault R (history w) _); [reflexivity|].
  rewrite store_docs_by_insert.
  match goal with
  | |- context [insert_many R ?docs ?w0] =>
      pose proof (insert_many_session R docs w0) as Hins;
      destruct (insert_many R docs w0) as [[[]|e] w1]
  end; cbn [snd] in *.
  - match goal with
    | |- session_state (snd (ensure_index R ?w2)) = _ =>
        destruct (ensure_index_frame R w2) as (_ & _ & _ & Hs); rewrite Hs
    end.
    cbn [session_state st_write]. now rewrite Hins.
  - cbn [session_state st_write]. now rewrite Hins.
Qed.

(** What a successful ingestion leaves behind. *)
Lemma create_embeddings_and_store_returned
  speaker_transcripts w session_id doc_count w' :
  create_embeddings_and_store R speaker_transcripts w
  = (Returned (session_id, doc_count), w') ->
  session_id = uuid4 R (uuids_drawn w)
  /\ errors_shown w' = errors_shown w
  /\ exists embeds,
       collection w'
       = (collection w
          ++ build_docs (map speaker_sent speaker_transcripts) embeds
               session_id)%list
       /\ embeds
          = embeddings_of R (history w)
              (map speaker_sent speaker_transcripts) "document"
       /\ fault R (history w)
            (Embed (map speaker_sent speaker_transcripts) "voyage-2"
               "document") = None.
Proof.
  rewrite create_embeddings_and_store_run. cbv zeta. rewrite vo_embed_run.
  destruct (fault R (history w) _); [discriminate|].
  rewrite store_docs_by_insert.
  match goal with
  | |- context [insert_many R ?docs ?w0] =>
      destruct (insert_many R docs w0) as [[[]|e] w1] eqn:Hins;
        [|discriminate]
  end.
  destruct (insert_many_returned R _ _ Hins) as (_ & _ & _ & ->).
  intros [= <- _ <-].
  match goal with
  | |- context [snd (ensure_index R ?w2)] =>
      destruct (ensure_index_frame R w2) as (Hc & _ & He & _)
  end.
  unfold errors_shown. rewrite He, Hc. simpl.
  split; [reflexivity|]. split; [reflexivity|]. eauto.
Qed.

(** The upload handler, step by step. *)
Lemma main_upload_run path w :
  main_upload R path w =
  match transcribe_audio R path w with
  | (Raised e, w1) => (Returned tt, st_write (upload_error e) w1)
  | (Returned speaker_transcripts, w1) =>
      let w2 :=
        st_write transcribed_message
          (set_session_state
             (set_transcripts speaker_transcripts (session_state w1)) w1) in
      match create_embeddings_and_store R speaker_transcripts w2 with
      | (Raised e, w3) => (Returned tt, st_write (upload_error e) w3)
      | (Returned (session_id, doc_count), w3) =>
          (Returned tt,
           st_write (processed_message doc_count)
             (set_session_state
                (set_session_id session_id (session_state w3)) w3))
      end
  end.
Proof.
  unfold main_upload, try_except, bind.
  destruct (transcribe_audio R path w) as [[ts|e] w1]; [|reflexivity].
  unfold modify at 1. unfold st_success at 1, st_message, modify at 1.
  cbv zeta.
  destruct (create_embeddings_and_store R ts _) as [[[sid n]|e] w3];
    reflexivity.
Qed.

(** The upload handler never raises. When it shows its error message the
    session id is the one from before; otherwise no error was shown and
    the session id is the one drawn by this ingestion. *)
Theorem upload_keeps_the_session_unless_it_succeeds path w :
  exists w',
    main_upload R path w = (Returned tt, w')
    /\ ((ss_session_id (session_state w') = ss_session_id (session_state w)
         /\ exists e rest, page w' = upload_error e :: rest)
        \/ (ss_session_id (session_state w') = Some (uuid4 R (uuids_drawn w))
            /\ errors_shown w' = errors_shown w)).
Proof.
  rewrite main_upload_run, transcribe_audio_run.
  destruct (fault R (history w) _) as [e|].
  - eexists. split; [reflexivity|]. left. simpl. eauto.
  - cbv zeta.
    set (w2 := st_write transcribed_message _).
    pose proof (create_embeddings_and_store_session
                  (labelled (utterances_of R path)) w2) as Hss.
    destruct (create_embeddings_and_store R _ w2) as [[[sid n]|e] w3] eqn:Hrun.
    + eexists. split; [reflexivity|]. right.
      destruct (create_embeddings_and_store_returned _ _ Hrun)
        as (-> & Herr & _).
      split; [reflexivity|].
      unfold errors_shown in *. simpl in *. exact Herr.
    + eexists. split; [reflexivity|]. left. simpl in *. rewrite Hss.
      split; [reflexivity|]. eauto.
Qed.

(** When transcription fails, the handler shows the error and stops: the
    session state and the store are as before, and no other service was
    called. *)
Theorem failed_transcription_changes_nothing path e w :
  fault R (history w) (Transcribe path) = Some e ->
  exists w',
    main_upload R path w = (Returned tt, w')
    /\ session_state w' = session_state w
    /\ collection w' = collection w
    /\ search_indexes w' = search_indexes w
    /\ history w' = Transcribe path :: history w
    /\ page w' = upload_error e :: page w.
Proof.
  intros Hfault. rewrite main_upload_run, transcribe_audio_run, Hfault.
  eexists. split; [reflexivity|]. simpl. auto 10.
Qed.

(** When the transcription goes through and the embedding fails, the
    session state holds the new transcripts next to the session id of the
    previous upload (or none), and nothing was stored. *)
Theorem failed_embedding_leaves_new_transcripts_with_old_session path e w :
  let speaker_transcripts := labelled (utterances_of R path) in
  fault R (history w) (Transcribe path) = None ->
  fault R (Transcribe path :: history w)
    (Embed (map speaker_sent speaker_transcripts) "voyage-2" "document")
  = Some e ->
  exists w',
    main_upload R path w = (Returned tt, w')
    /\ session_state w'
       = mkSessionState (ss_session_id (session_state w))
           (Some speaker_transcripts) (ss_chat_history (session_state w))
    /\ collection w' = collection w
    /\ page w' = upload_error e :: transcribed_message :: page w.
Proof.
  intros ts Htr Hemb. rewrite main_upload_run, transcribe_audio_run, Htr.
  cbv zeta. rewrite create_embeddings_and_store_run. cbv zeta.
  rewrite vo_embed_run. cbn [history st_write set_session_state record_call].
  fold ts. rewrite Hemb.
  eexists. split; [reflexivity|]. simpl. auto.
Qed.

(** When there is at least one utterance, every step goes through and the
    embedding client answers with one vector per text, the upload stores
    one segment per utterance, in order, with the text
    "Speaker {label}: {text}", all under the new session id, which becomes
    the active one together with the new transcripts. *)
Theorem upload_stores_the_labelled_utterances path w :
  let utterances := utterances_of R path in
  let speaker_sents := map speaker_sent (labelled utterances) in
  let session_id := uuid4 R (uuids_drawn w) in
  utterances <> [] ->
  fault R (history w) (Transcribe path) = None ->
  fault R (Transcribe path :: history w)
    (Embed speaker_sents "voyage-2" "document") = None ->
  length (embeddings_of R (Transcribe path :: history w) speaker_sents
            "document") = length utterances ->
  (forall docs,
     fault R (Embed speaker_sents "voyage-2" "document"
              :: Transcribe path :: history w) (InsertMany docs) = None) ->
  exists stored w',
    main_upload R path w = (Returned tt, w')
    /\ collection w' = (collection w ++ stored)%list
    /\ map (@d_text Vec) stored
       = map (fun u => ("Speaker " ++ fst u ++ ": " ++ snd u)%string)
             utterances
    /\ Forall (fun d => d_session_id d = session_id) stored
    /\ session_state w'
       = mkSessionState (Some session_id) (Some (labelled utterances))
           (ss_chat_history (session_state w)).
Proof.
  intros us sents sid Hne Htr Hemb Hlen Hins.
  rewrite main_upload_run, transcribe_audio_run, Htr. cbv zeta.
  set (w2 := st_write transcribed_message _).
  set (embeds := embeddings_of R (Transcribe path :: history w) sents
                   "document") in *.
  assert (Hs : length us = length sents)
    by (unfold sents, labelled; now rewrite !length_map).
  assert (Hdocs : build_docs sents embeds sid <> []).
  { intros Hnil. apply (f_equal (@length _)) in Hnil.
    rewrite build_docs_length, Hlen, <- Hs, Nat.min_id in Hnil.
    destruct us; [congruence|discriminate]. }
  destruct (create_embeddings_and_store_succeeds R (labelled us) w2)
    as (w3 & Hrun & Hc & Hss).
  - exact Hemb.
  - exact Hdocs.
  - apply Hins.
  - fold us. rewrite Hrun.
    exists (build_docs sents embeds sid). eexists.
    split; [reflexivity|]. split; [|split; [|split]].
    + cbn [collection st_write set_session_state]. exact Hc.
    + rewrite build_docs_texts, Hlen, Hs, firstn_all.
      unfold sents, labelled. rewrite map_map. reflexivity.
    + apply build_docs_session.
    + cbn [session_state st_write set_session_state]. rewrite Hss.
      reflexivity.
Qed.

End Upload.

(** * Properties of the chat part and of the clean-up *)

Section Chat.

Variable Vec : Type.
Variable R : Remote Vec.

Implicit Types (w : World Vec).

(** The query pipeline neither reads nor writes the session state. *)
Lemma search_ignores_session_state ss query session_id w :
  search_and_generate_response R query session_id (set_session_state ss w)
  = (fst (search_and_generate_response R query session_id w),
     set_session_state ss
       (snd (search_and_generate_response R query session_id w))).
Proof.
  rewrite !search_and_generate_response_run, !vo_embed_run.
  cbn [history set_session_state].
  destruct (fault R (history w) _); [reflexivity|].
  destruct (index0 _) as [q|e]; [|reflexivity].
  rewrite !aggregate_run. cbn [history set_session_state record_call].
  destruct (fault R _ _); [reflexivity|].
  change (run_pipeline R
            (record_call (Embed [query] "voyage-2" "query")
               (set_session_state ss w)) (search_pipeline q session_id))
    with (run_pipeline R (record_call (Embed [query] "voyage-2" "query") w)
            (search_pipeline q session_id)).
  destruct (run_pipeline R _ _) as [[|r rs]|e]; try reflexivity.
  cbv zeta. rewrite !generate_answer_run.
  cbn [history set_session_state record_call].
  destruct (fault R _ _); [reflexivity|].
  destruct (index0 (candidates_of R _ _)) as [parts|e]; [|reflexivity].
  destruct (index0 parts); reflexivity.
Qed.

(** Every citation of the pipeline carries a score, so showing the sources
    never fails. *)
Lemma render_sources_returns query session_id w answer results w' :
  search_and_generate_response R query session_id w
  = (Returned (answer, results), w') ->
  render_sources results = Returned tt.
Proof.
  intros Hrun. destruct (search_citations _ _ _ _ Hrun) as [q [-> | ->]].
  - reflexivity.
  - unfold render_sources.
    replace (forallb _ _) with true; [reflexivity|].
    symmetry. apply forallb_forall. intros r Hr.
    apply in_map_iff in Hr. now destruct Hr as (r0 & <- & _).
Qed.

Lemma append_chat_run role content w turns :
  ss_chat_history (session_state w) = Some turns ->
  append_chat role content w
  = (Returned tt,
     set_session_state
       (mkSessionState (ss_session_id (session_state w))
          (ss_transcripts (session_state w))
          (Some (turns ++ [(role, content)])%list)) w).
Proof.
  intros H. unfold append_chat, bind, get. now rewrite H.
Qed.

(** With a session id in the session state, a submitted question adds
    exactly two turns to the chat history, the question and one reply,
    and the handler does not raise: the reply is the answer of the query
    pipeline, or, when the pipeline raised (a failed query embedding), the
    error text, which is also shown as an error. The store is left as it
    was. *)
Theorem chat_appends_the_exchange q sid w :
  q <> "" ->
  ss_session_id (session_state w) = Some sid ->
  exists reply w',
    main_chat R (Some q) w = (Returned tt, w')
    /\ chat_turns w' = (chat_turns w ++ [("user", q); ("assistant", reply)])%list
    /\ ss_session_id (session_state w') = Some sid
    /\ collection w' = collection w
    /\ match fst (search_and_generate_response R q (Some sid) w) with
       | Returned (answer, _) => reply = answer /\ page w' = page w
       | Raised e =>
           reply = chat_error_text e
           /\ page w' = mkStMessage StError reply :: page w
       end.
Proof.
  intros Hq Hsid.
  assert (Htruthy : truthy (Some q) = true).
  { unfold truthy. destruct (String.eqb q "") eqn:E; auto.
    apply String.eqb_eq in E. contradiction. }
  unfold main_chat, bind. unfold modify at 1. rewrite Htruthy.
  unfold get at 1.
  set (w0 := set_session_state (init_chat_history (session_state w)) w).
  assert (Hsid0 : ss_session_id (session_state w0) = Some sid).
  { subst w0. simpl. unfold init_chat_history.
    destruct (ss_chat_history (session_state w)); auto. }
  assert (Hturns0 : ss_chat_history (session_state w0) = Some (chat_turns w)).
  { subst w0. simpl. unfold init_chat_history, chat_turns.
    destruct (ss_chat_history (session_state w)) eqn:E; simpl; auto. }
  rewrite Hsid0. rewrite (append_chat_run "user" q w0 Hturns0).
  rewrite Hsid0.
  set (ss1 := mkSessionState (Some sid) (ss_transcripts (session_state w0))
                (Some (chat_turns w ++ [("user", q)])%list)).
  change (set_session_state ss1 w0) with (set_session_state ss1 w).
  unfold try_except. rewrite search_ignores_session_state.
  pose proof (search_frame R q (Some sid) w) as Hframe. cbv zeta in Hframe.
  destruct Hframe as (Hc & Hp).
  destruct (search_and_generate_response R q (Some sid) w)
    as [[[answer results]|e] w2] eqn:Hrun; cbn [fst snd] in *.
  - rewrite (render_sources_returns _ _ _ Hrun). unfold lift.
    rewrite (append_chat_run "assistant" answer
               (set_session_state ss1 w2) (turns := (chat_turns w ++ [("user", q)])%list))
      by reflexivity.
    exists answer. eexists. split; [reflexivity|].
    unfold chat_turns. simpl. rewrite <- app_assoc. auto.
  - unfold st_error, st_message, modify.
    rewrite (append_chat_run "assistant" _
               (st_write (mkStMessage StError ("生成回答時發生錯誤: " ++ e)%string)
                  (set_session_state ss1 w2))
               (turns := (chat_turns w ++ [("user", q)])%list))
      by reflexivity.
    exists (chat_error_text e). eexists. split; [reflexivity|].
    unfold chat_turns. simpl. rewrite <- app_assoc, Hp. auto.
Qed.

(** The chat part when no session id is held. *)
Lemma main_chat_without_session query w :
  ss_session_id (session_state w) = None ->
  main_chat R query w
  = (Returned tt,
     let w0 := set_session_state (init_chat_history (session_state w)) w in
     if truthy query then st_write no_session_warning w0 else w0).
Proof.
  intros Hnone. unfold main_chat, bind. unfold modify at 1.
  destruct query as [q|]; [|reflexivity].
  destruct (truthy (Some q)); [|reflexivity].
  unfold get at 1. cbn [session_state set_session_state].
  replace (ss_session_id (init_chat_history (session_state w))) with (@None string).
  - reflexivity.
  - unfold init_chat_history.
    destruct (ss_chat_history (session_state w)); simpl; auto.
Qed.

(** Without a session id in the session state the chat part calls no
    service and adds no turn; a submitted question only gets the warning
    that asks for an upload first. *)
Theorem chat_without_session_calls_nothing query w :
  ss_session_id (session_state w) = None ->
  exists w',
    main_chat R query w = (Returned tt, w')
    /\ history w' = history w
    /\ collection w' = collection w
    /\ chat_turns w' = chat_turns w
    /\ (truthy query = true -> page w' = no_session_warning :: page w).
Proof.
  intros Hnone. rewrite (main_chat_without_session query w Hnone).
  eexists. split; [reflexivity|]. cbv zeta.
  assert (Hturns : chat_turns
            (set_session_state (init_chat_history (session_state w)) w)
          = chat_turns w).
  { unfold chat_turns, init_chat_history. simpl.
    destruct (ss_chat_history (session_state w)) eqn:E; simpl; auto.
    now rewrite E. }
  destruct (truthy query); simpl; auto.
  repeat split; auto. discriminate.
Qed.

(** After a clean-up whose delete went through, a question is not
    searched at all: the session id is gone, so the chat part makes no
    remote call. *)
Theorem chat_after_reset_calls_nothing query w :
  fault R (history w) DeleteMany = None ->
  let cleared := snd (reset R w) in
  exists w',
    main_chat R query cleared = (Returned tt, w')
    /\ history w' = history cleared
    /\ chat_turns w' = []
    /\ collection w' = [].
Proof.
  intros Hdel. cbv zeta.
  assert (Hss : session_state (snd (reset R w)) = mkSessionState None None None
                /\ collection (snd (reset R w)) = []).
  { rewrite reset_run, Hdel. clear Hdel. cbv zeta.
    cbn [history set_collection record_call].
    destruct (fault R (DeleteMany :: history w)
                (DropSearchIndex "vector_index")); [split; reflexivity|].
    destruct (existsb _ _); split; reflexivity. }
  destruct Hss as [Hss Hc].
  rewrite main_chat_without_session by now rewrite Hss.
  eexists. split; [reflexivity|]. cbv zeta. rewrite Hss.
  destruct (truthy query); simpl; rewrite ?Hc; auto.
Qed.


End Chat.

(** * The further properties at concrete inputs *)

Lemma citations_are_at_most_five_stored_segments_witness :
  length mixed_results <= 5
  /\ exists q more,
       fst (vo_embed demo ["q"] "voyage-2" "query" mixed_sessions)
       = Returned (q :: more)
       /\ Forall (fun r =>
                    r_embedding r = None /\
                    exists d, In d (collection mixed_sessions)
                              /\ r_text r = d_text d
                              /\ r_session_id r = d_session_id d
                              /\ r_score r
                                 = Some (similarity demo q (d_embedding d)))
                 mixed_results.
Proof.
  apply (@citations_are_at_most_five_stored_segments Z demo "q" (Some "A")
           "an answer" mixed_results mixed_sessions
           (after_answer demo mixed_sessions)).
  vm_compute. reflexivity.
Defined.


Lemma unscoped_search_draws_on_every_session_witness :
  length unscoped_results = Nat.min 5 (length (collection mixed_sessions))
  /\ forall r, In r unscoped_results ->
       exists d, In d (collection mixed_sessions) /\ r_text r = d_text d
                 /\ r_session_id r = d_session_id d.
Proof.
  apply (@unscoped_search_draws_on_every_session Z demo "q" None 1%Z []
           unscoped_results mixed_sessions (after_embed demo mixed_sessions)
           (snd (aggregate demo (search_pipeline 1%Z None)
                   (after_embed demo mixed_sessions)))).
  - reflexivity.
  - reflexivity.
  - vm_compute. reflexivity.
  - vm_compute. reflexivity.
Defined.

Lemma embedding_failure_writes_nothing_witness :
  create_embeddings_and_store embed_down demo_transcripts empty_world
  = (Raised "voyage unreachable", ingest_embedded embed_down)
  /\ collection (ingest_embedded embed_down) = collection empty_world
  /\ search_indexes (ingest_embedded embed_down) = search_indexes empty_world
  /\ uuids_drawn (ingest_embedded embed_down) = uuids_drawn empty_world
  /\ page (ingest_embedded embed_down) = page empty_world
  /\ history (ingest_embedded embed_down)
     = Embed (map speaker_sent demo_transcripts) "voyage-2" "document"
       :: history empty_world.
Proof.
  apply (@embedding_failure_writes_nothing Z embed_down demo_transcripts
           "voyage unreachable" empty_world (ingest_embedded embed_down)).
  vm_compute. reflexivity.
Defined.

Lemma insert_failure_is_raised_witness :
  exists w2,
    create_embeddings_and_store insert_down demo_transcripts empty_world
    = (Raised "write refused", w2)
    /\ page w2 = [mkStMessage StError "插入文檔時發生錯誤: write refused"]
    /\ search_indexes w2 = [].
Proof.
  destruct (@insert_failure_is_raised Z insert_down demo_transcripts
              (demo_embeddings demo_sents) "write refused" empty_world
              (ingest_embedded insert_down)
              (snd (insert_many insert_down
                      (build_docs demo_sents (demo_embeddings demo_sents)
                         "session-0")
                      (draw_uuid (ingest_embedded insert_down)))))
    as (w2 & Hrun & Hpage & _ & _ & _ & Hidx & _).
  - vm_compute. reflexivity.
  - vm_compute. reflexivity.
  - exists w2. split; [exact Hrun|]. split; [exact Hpage|exact Hidx].
Defined.

Lemma ensure_index_never_duplicates_witness :
  count_named "vector_index"
    (search_indexes (snd (ensure_index demo two_sessions))) <= 1.
Proof.
  apply (@ensure_index_never_duplicates Z demo two_sessions).
  unfold count_named. simpl. lia.
Defined.

Lemma failed_transcription_changes_nothing_witness :
  exists w',
    main_upload transcribe_down "a.mp3" mixed_sessions = (Returned tt, w')
    /\ session_state w' = session_state mixed_sessions
    /\ collection w' = collection mixed_sessions
    /\ search_indexes w' = search_indexes mixed_sessions
    /\ history w' = Transcribe "a.mp3" :: history mixed_sessions
    /\ page w' = upload_error "unsupported format" :: page mixed_sessions.
Proof.
  apply (@failed_transcription_changes_nothing Z transcribe_down "a.mp3"
           "unsupported format" mixed_sessions).
  reflexivity.
Defined.

Lemma failed_embedding_leaves_new_transcripts_with_old_session_witness :
  exists w',
    main_upload embed_down "a.mp3" mixed_sessions = (Returned tt, w')
    /\ session_state w'
       = mkSessionState (Some "A") (Some demo_transcripts) (Some [])
    /\ collection w' = collection mixed_sessions
    /\ page w'
       = [upload_error "voyage unreachable"; transcribed_message].
Proof.
  apply (@failed_embedding_leaves_new_transcripts_with_old_session Z
           embed_down "a.mp3" "voyage unreachable" mixed_sessions).
  - reflexivity.
  - reflexivity.
Defined.

Lemma upload_stores_the_labelled_utterances_witness :
  exists stored w',
    main_upload demo "a.mp3" empty_world = (Returned tt, w')
    /\ collection w' = stored
    /\ map (@d_text Z) stored = ["Speaker A: hello"; "Speaker B: world"]
    /\ Forall (fun d => d_session_id d = "session-0") stored
    /\ session_state w'
       = mkSessionState (Some "session-0") (Some demo_transcripts) None.
Proof.
  apply (@upload_stores_the_labelled_utterances Z demo "a.mp3" empty_world).
  - discriminate.
  - reflexivity.
  - reflexivity.
  - reflexivity.
  - intros docs. reflexivity.
Defined.

Lemma chat_appends_the_exchange_witness :
  exists reply w',
    main_chat embed_down (Some "q") mixed_sessions = (Returned tt, w')
    /\ chat_turns w' = [("user", "q"); ("assistant", reply)]
    /\ reply = chat_error_text "voyage unreachable"
    /\ page w' = [mkStMessage StError reply].
Proof.
  destruct (@chat_appends_the_exchange Z embed_down "q" "A" mixed_sessions)
    as (reply & w' & Hrun & Hturns & _ & _ & Hreply).
  - discriminate.
  - reflexivity.
  - exists reply, w'. split; [exact Hrun|]. split; [exact Hturns|].
    exact Hreply.
Defined.

Lemma chat_without_session_calls_nothing_witness :
  exists w',
    main_chat demo (Some "q") empty_world = (Returned tt, w')
    /\ history w' = []
    /\ chat_turns w' = []
    /\ page w' = [no_session_warning].
Proof.
  destruct (@chat_without_session_calls_nothing Z demo (Some "q") empty_world)
    as (w' & Hrun & Hh & _ & Hturns & Hpage).
  - reflexivity.
  - exists w'. split; [exact Hrun|]. split; [exact Hh|].
    split; [exact Hturns|]. apply Hpage. reflexivity.
Defined.

Lemma chat_after_reset_calls_nothing_witness :
  exists w',
    main_chat demo (Some "q") (snd (reset demo two_sessions))
    = (Returned tt, w')
    /\ history w' = history (snd (reset demo two_sessions))
    /\ chat_turns w' = []
    /\ collection w' = [].
Proof.
  apply (@chat_after_reset_calls_nothing Z demo (Some "q") two_sessions).
  reflexivity.
Defined.

